(** * Element retrieval of the Dendrite SDK: cache tier, discovery tier, backoff

    A shallow embedding of [dendrite/async_api/_core/mixin/get_element.py]
    ([GetElementMixin._get_element], [test_if_cache_available],
    [attempt_with_backoff], [get_elements_from_selectors]) together with the
    properties of the retrieval policy.

    Conventions of the embedding.
    - Time is counted in whole milliseconds ([Z]).  The Python code works in
      float seconds: [0.15] is [150], [CACHE_TIMEOUT = 5] is [5000], and the
      public [timeout] (milliseconds, divided by 1000 on entry) is passed on
      unchanged.
    - The coroutines run one after the other inside one call, so [await] is
      sequencing in a monad that threads the clock and the log of calls made
      to the collaborators, and that propagates Python exceptions.
    - Only calls to the collaborators (page driver, API client) and
      [asyncio.sleep] let time pass; [asyncio.sleep d] lasts exactly [d].
    - The clock is compared with a budget exactly.  With Python's floats the
      difference of two clock readings can miss an exact tie by a rounding
      error, so the statements below either keep off such ties or count an
      attempt that starts at the very end of a budget.
    - [logger] calls are not modelled. *)

From stdpp Require Import gmap strings list.
From Stdlib Require Import ZArith Lia.

Open Scope Z_scope.

(** ** Data model *)

(** [Union[str, Dict[str, str]]]: a prompt, or field names with their prompts. *)
Inductive Prompt : Type :=
| PromptStr (prompt : string)
| PromptDict (elements : list (string * string)).

(** An [AsyncElement] is a handle on a live node; its class is not part of the
    sources and nothing of it is inspected here. *)
Record AsyncElement : Type := { handle : N }.

(** What [page.get_page_information] returns; only [url] is read here. *)
Record PageInformation : Type := {
  url : string;
  screenshot_base64 : option string
}.

Record APIConfig : Type := { api_keys : list (string * string) }.

Module CheckSelectorCacheDTO.
Record t : Type := { url : string; prompt : Prompt }.
End CheckSelectorCacheDTO.

Module GetElementsDTO.
Record t : Type := {
  page_information : PageInformation;
  prompt : Prompt;
  api_config : APIConfig;
  use_cache : bool;
  only_one : bool;
  force_use_cache : bool
}.
End GetElementsDTO.

(** Modelled from the spec: the declaration of [GetElementResponse] is not part
    of the sources.  A resolution carries a status, a message and selectors
    that are either an ordered sequence of selector strings or a mapping from
    field name to an ordered sequence of selector strings.  The mapping is
    kept as the list of its items, in the order [dict.items()] yields them. *)
Inductive Selectors : Type :=
| SelList (selectors : list string)
| SelDict (items : list (string * list string)).

Record GetElementResponse : Type := {
  status : string;
  message : string;
  selectors : Selectors
}.

(** What [_get_element] and its helpers return:
    [None], one element, a list of elements, or an [AsyncElementsResponse]
    wrapping a dict from field name to element. *)
Inductive Outcome : Type :=
| NoneValue
| OneElement (element : AsyncElement)
| ElementList (elements : list AsyncElement)
| ElementsResponse (data : gmap string AsyncElement).

(** ** Exceptions, the world, and the monad of coroutines *)

Definition Exn : Type := string.

Inductive Result (A : Type) : Type :=
| Ok (a : A)
| Raise (e : Exn).
Arguments Ok {A} a.
Arguments Raise {A} e.

(** One entry of the log per call to a collaborator, with what it answered. *)
Inductive Event : Type :=
| EvPageInformation (include_screenshot : bool) (reply : Result PageInformation)
| EvCheckSelectorCache (dto : CheckSelectorCacheDTO.t) (reply : Result bool)
| EvInteractionsSelector (dto : GetElementsDTO.t) (reply : Result GetElementResponse)
| EvAllElements (selector : string) (reply : Result (list AsyncElement))
| EvSleep (duration : Z).

Record World : Type := {
  now : Z;               (* time.time(), in milliseconds *)
  trace : list Event     (* calls made so far, oldest first *)
}.

(** The collaborators.  Each call answers from the current world (the clock
    and everything that happened before), with a value or an exception, and
    takes some time.  The truth values Python gives to [AsyncElement] and
    [AsyncElementsResponse] objects belong here too: both classes are outside
    the sources. *)
Record Collaborators : Type := {
  (* page driver *)
  page_get_page_information : bool -> World -> Result PageInformation * Z;
  page_get_all_elements_from_selector : string -> World -> Result (list AsyncElement) * Z;
  (* browser API client *)
  client_check_selector_cache : CheckSelectorCacheDTO.t -> World -> Result bool * Z;
  client_get_interactions_selector : GetElementsDTO.t -> World -> Result GetElementResponse * Z;
  (* self._get_dendrite_browser().api_config *)
  browser_api_config : APIConfig;
  (* bool(x) for objects of classes declared elsewhere *)
  element_bool : AsyncElement -> bool;
  response_bool : gmap string AsyncElement -> bool
}.

Definition M (A : Type) : Type := World -> Result A * World.

Definition ret {A : Type} (a : A) : M A := fun w => (Ok a, w).

Definition bind {A B : Type} (m : M A) (k : A -> M B) : M B :=
  fun w =>
    match m w with
    | (Ok a, w') => k a w'
    | (Raise e, w') => (Raise e, w')
    end.

Declare Scope coroutine_scope.
Delimit Scope coroutine_scope with coroutine.
Notation "x <- c1 ;; c2" := (bind c1 (fun x => c2))
  (at level 100, c1 at next level, right associativity) : coroutine_scope.
Notation "c1 ;; c2" := (bind c1 (fun _ => c2))
  (at level 100, right associativity) : coroutine_scope.
Open Scope coroutine_scope.

Definition time_time : M Z := fun w => (Ok (now w), w).

Definition call {A : Type} (ev : Result A -> Event) (f : World -> Result A * Z) : M A :=
  fun w =>
    let '(reply, took) := f w in
    (reply, {| now := now w + took; trace := trace w ++ [ev reply] |}).

Definition asyncio_sleep (duration : Z) : M unit :=
  fun w => (Ok tt, {| now := now w + duration; trace := trace w ++ [EvSleep duration] |}).

(** ** The module *)

Definition CACHE_TIMEOUT : Z := 5000.

Definition TIMEOUT_INTERVAL : list Z := [150; 450; 1000; 2000; 4000; 8000].

Section GetElementMixin.

Context (C : Collaborators).

(** Python's [if x:] on the values the functions below handle. *)
Definition truthy (x : Outcome) : bool :=
  match x with
  | NoneValue => false
  | OneElement e => element_bool C e
  | ElementList l => match l with [] => false | _ :: _ => true end
  | ElementsResponse data => response_bool C data
  end.

Definition get_page_information (include_screenshot : bool) : M PageInformation :=
  call (EvPageInformation include_screenshot)
       (page_get_page_information C include_screenshot).

Definition _get_all_elements_from_selector (selector : string) : M (list AsyncElement) :=
  call (EvAllElements selector) (page_get_all_elements_from_selector C selector).

Definition check_selector_cache (dto : CheckSelectorCacheDTO.t) : M bool :=
  call (EvCheckSelectorCache dto) (client_check_selector_cache C dto).

Definition get_interactions_selector (dto : GetElementsDTO.t) : M GetElementResponse :=
  call (EvInteractionsSelector dto) (client_get_interactions_selector C dto).

(** *** [get_elements_from_selectors] *)

(** The inner [for selector in selectors] of the dict branch: the first
    element of the first selector with a live match, [None] when the loop
    ends without [break]. *)
Fixpoint first_match (selectors : list string) : M (option AsyncElement) :=
  match selectors with
  | [] => ret None
  | selector :: rest =>
      dendrite_elements <- _get_all_elements_from_selector selector ;;
      match dendrite_elements with
      | e :: _ => ret (Some e)
      | [] => first_match rest
      end
  end.

(** The outer [for key, selectors in res.selectors.items()]. *)
Fixpoint fill_fields (items : list (string * list string))
         (result : gmap string AsyncElement) : M (gmap string AsyncElement) :=
  match items with
  | [] => ret result
  | (key, selectors) :: rest =>
      found <- first_match selectors ;;
      fill_fields rest
        (match found with
         | Some e => <[key := e]> result
         | None => result
         end)
  end.

(** The [for selector in reversed(res.selectors)] of the list branch, run on
    the reversed list; the trailing [return None] when nothing matched. *)
Fixpoint first_live (only_one : bool) (selectors : list string) : M Outcome :=
  match selectors with
  | [] => ret NoneValue
  | selector :: rest =>
      dendrite_elements <- _get_all_elements_from_selector selector ;;
      match dendrite_elements with
      | e :: _ => ret (if only_one then OneElement e else ElementList dendrite_elements)
      | [] => first_live only_one rest
      end
  end.

Definition get_elements_from_selectors (res : GetElementResponse) (only_one : bool)
  : M Outcome :=
  match selectors res with
  | SelDict items =>
      result <- fill_fields items ∅ ;;
      ret (ElementsResponse result)
  | SelList l => first_live only_one (rev l)
  end.

(** *** [test_if_cache_available] *)

Definition test_if_cache_available (prompt_or_elements : Prompt) : M bool :=
  page_information <- get_page_information false ;;
  let dto := {| CheckSelectorCacheDTO.url := url page_information;
                CheckSelectorCacheDTO.prompt := prompt_or_elements |} in
  check_selector_cache dto.

(** *** [attempt_with_backoff] *)

Section Backoff.

Context (prompt_or_elements : Prompt) (only_one : bool) (api_config : APIConfig)
        (remaining_timeout : Z) (only_use_cache : bool).

(** The request of one attempt. *)
Definition request_dto (page_information : PageInformation) : GetElementsDTO.t :=
  {| GetElementsDTO.page_information := page_information;
     GetElementsDTO.prompt := prompt_or_elements;
     GetElementsDTO.api_config := api_config;
     GetElementsDTO.use_cache := only_use_cache;
     GetElementsDTO.only_one := only_one;
     GetElementsDTO.force_use_cache := only_use_cache |}.

(** The body of [for current_timeout in TIMEOUT_INTERVAL], from the
    intervals still to come and the value of [total_elapsed_time]. *)
Fixpoint backoff_loop (start_time : Z) (intervals : list Z) (total_elapsed_time : Z)
  : M Outcome :=
  match intervals with
  | [] => ret NoneValue
  | current_timeout :: rest =>
      if remaining_timeout <=? total_elapsed_time then ret NoneValue
      else
        request_start_time <- time_time ;;
        page_information <- get_page_information (negb only_use_cache) ;;
        res <- get_interactions_selector (request_dto page_information) ;;
        request_end_time <- time_time ;;
        let request_duration := request_end_time - request_start_time in
        if String.eqb (status res) "impossible" then ret NoneValue
        else
          response <- (if String.eqb (status res) "success"
                       then get_elements_from_selectors res only_one
                       else ret NoneValue) ;;
          if String.eqb (status res) "success" && truthy response then ret response
          else
            let sleep_duration := Z.max 0 (current_timeout - request_duration) in
            asyncio_sleep sleep_duration ;;
            t <- time_time ;;
            backoff_loop start_time rest (t - start_time)
  end.

Definition attempt_with_backoff : M Outcome :=
  start_time <- time_time ;;
  backoff_loop start_time TIMEOUT_INTERVAL 0.

End Backoff.

(** *** [_get_element] and the public entry points *)

Definition _get_element (prompt_or_elements : Prompt) (only_one use_cache : bool)
           (timeout : Z) : M Outcome :=
  let api_config := browser_api_config C in
  start_time <- time_time ;;
  cache_available <- test_if_cache_available prompt_or_elements ;;
  cached <- (if cache_available && use_cache
             then attempt_with_backoff prompt_or_elements only_one api_config
                                       CACHE_TIMEOUT true
             else ret NoneValue) ;;
  if cache_available && use_cache && truthy cached then ret cached
  else
    t <- time_time ;;
    res <- attempt_with_backoff prompt_or_elements only_one api_config
                                (timeout - (t - start_time)) false ;;
    if truthy res then ret res else ret NoneValue.

Definition get_elements (prompt_or_elements : Prompt) (use_cache : bool) (timeout : Z)
  : M Outcome :=
  _get_element prompt_or_elements false use_cache timeout.

Definition get_element (prompt : string) (use_cache : bool) (timeout : Z) : M Outcome :=
  _get_element (PromptStr prompt) true use_cache timeout.

End GetElementMixin.


(** ** Reading the log *)

Definition is_request (ev : Event) : bool :=
  match ev with EvInteractionsSelector _ _ => true | _ => false end.

Definition is_cache_check (ev : Event) : bool :=
  match ev with EvCheckSelectorCache _ _ => true | _ => false end.

Definition is_sleep (ev : Event) : bool :=
  match ev with EvSleep _ => true | _ => false end.

(** A resolution request answered with status [impossible]. *)
Definition is_impossible (ev : Event) : bool :=
  match ev with
  | EvInteractionsSelector _ (Ok res) => String.eqb (status res) "impossible"
  | _ => false
  end.

Definition count (p : Event -> bool) (tr : list Event) : nat :=
  length (filter (fun ev => p ev = true) tr).

Definition is_query (ev : Event) : bool :=
  match ev with EvAllElements _ _ => true | _ => false end.

(** The selectors the page driver was asked about, oldest first. *)
Fixpoint queried (tr : list Event) : list string :=
  match tr with
  | [] => []
  | EvAllElements selector _ :: rest => selector :: queried rest
  | _ :: rest => queried rest
  end.

(** ** Collaborators to run the code against *)

Definition default_page_information (include_screenshot : bool) : PageInformation :=
  {| url := "https://example.org/";
     screenshot_base64 := if include_screenshot then Some "iVBORw0KGgo=" else None |}.

(** A page that does not change, a cache service answering [cache_exists]
    after [probe_took] ms, and a discovery service whose n-th answer (counting
    from 0) is [answers n], each after [request_took] ms.  Objects have
    Python's default truth value: the one of a class that defines neither
    [__bool__] nor [__len__]. *)
Definition scripted (page : string -> list AsyncElement) (cache_exists : Result bool)
           (answers : nat -> Result GetElementResponse) (probe_took request_took : Z)
  : Collaborators :=
  {| page_get_page_information := fun inc _ => (Ok (default_page_information inc), 0);
     page_get_all_elements_from_selector := fun selector _ => (Ok (page selector), 0);
     client_check_selector_cache := fun _ _ => (cache_exists, probe_took);
     client_get_interactions_selector :=
       fun _ w => (answers (count is_request (trace w)), request_took);
     browser_api_config := {| api_keys := [("dendrite_api_key", "key")] |};
     element_bool := fun _ => true;
     response_bool := fun _ => true |}.

Definition failure_response : GetElementResponse :=
  {| status := "failure"; message := "no selector found"; selectors := SelList [] |}.

Definition impossible_response : GetElementResponse :=
  {| status := "impossible"; message := "no such element"; selectors := SelList [] |}.

Definition success_response (s : Selectors) : GetElementResponse :=
  {| status := "success"; message := "selectors found"; selectors := s |}.

Definition el (n : N) : AsyncElement := {| handle := n |}.

Definition empty_page : string -> list AsyncElement := fun _ => [].

(** Only [#a] matches, two elements. *)
Definition page_a (selector : string) : list AsyncElement :=
  if String.eqb selector "#a" then [el 1; el 2] else [].

(** [#n2] and [#e1] match, [#n1] does not. *)
Definition page_form (selector : string) : list AsyncElement :=
  if String.eqb selector "#n2" then [el 20; el 21]
  else if String.eqb selector "#e1" then [el 30]
  else [].

Definition w0 : World := {| now := 1000000; trace := [] |}.

(** Nothing is cached, nothing on the page, every resolution fails. *)
Definition always_failure : Collaborators :=
  scripted empty_page (Ok false) (fun _ => Ok failure_response) 0 0.

(** As [always_failure], but the second resolution is [impossible]. *)
Definition second_impossible : Collaborators :=
  scripted empty_page (Ok false)
           (fun n => Ok (if Nat.eqb n 1 then impossible_response else failure_response)) 0 0.

(** A cached selector exists for the field [name], but it is stale: every
    resolution succeeds with [{"name": ["#n1"]}] and the page has no match. *)
Definition stale_dict : Collaborators :=
  scripted empty_page (Ok true)
           (fun _ => Ok (success_response (SelDict [("name", ["#n1"])]))) 0 0.

(** The same with the list-shaped resolution [["#old"]]. *)
Definition stale_list : Collaborators :=
  scripted empty_page (Ok true)
           (fun _ => Ok (success_response (SelList ["#old"]))) 0 0.

(** The cache service cannot be reached. *)
Definition probe_down : Collaborators :=
  scripted empty_page (Raise "ConnectionError") (fun _ => Ok failure_response) 0 0.

(** The cache service answers "nothing cached" after 400 ms. *)
Definition slow_probe : Collaborators :=
  scripted empty_page (Ok false) (fun _ => Ok failure_response) 400 0.

(** The number of attempts that start before the budget [remaining] is used
    up, when the first starts [elapsed] ms into the loop and each lasts as
    long as its interval. *)
Fixpoint attempts_within (remaining elapsed : Z) (intervals : list Z) : nat :=
  match intervals with
  | [] => 0
  | current :: rest =>
      if remaining <=? elapsed then 0%nat
      else S (attempts_within remaining (elapsed + Z.max 0 current) rest)
  end.

(** Every resolution request is answered, with a status that is neither
    [success] nor [impossible], and the page information is always there. *)
Definition attempts_fail (C : Collaborators) : Prop :=
  (forall b w, exists info, fst (page_get_page_information C b w) = Ok info) /\
  (forall dto w, exists res,
      fst (client_get_interactions_selector C dto w) = Ok res /\
      String.eqb (status res) "impossible" = false /\
      String.eqb (status res) "success" = false).

(** ** Vocabulary of the statements *)

(** The page does not change while the call runs: asking the page driver for
    [selector] always yields [page selector]. *)
Definition answers_from (C : Collaborators) (page : string -> list AsyncElement) : Prop :=
  forall selector w, fst (page_get_all_elements_from_selector C selector w) = Ok (page selector).

(** The page driver returns normally whenever it is asked for elements. *)
Definition page_never_raises (C : Collaborators) : Prop :=
  forall selector w, exists l, fst (page_get_all_elements_from_selector C selector w) = Ok l.

(** No call to a collaborator takes any time. *)
Definition instant (C : Collaborators) : Prop :=
  (forall b w, snd (page_get_page_information C b w) = 0) /\
  (forall s w, snd (page_get_all_elements_from_selector C s w) = 0) /\
  (forall d w, snd (client_check_selector_cache C d w) = 0) /\
  (forall d w, snd (client_get_interactions_selector C d w) = 0).

(** No call to a collaborator makes the clock go back. *)
Definition durations_nonneg (C : Collaborators) : Prop :=
  (forall b w, 0 <= snd (page_get_page_information C b w)) /\
  (forall s w, 0 <= snd (page_get_all_elements_from_selector C s w)) /\
  (forall d w, 0 <= snd (client_check_selector_cache C d w)) /\
  (forall d w, 0 <= snd (client_get_interactions_selector C d w)).

Definition has_match (page : string -> list AsyncElement) (selector : string) : bool :=
  match page selector with [] => false | _ :: _ => true end.

(** The element a field is bound to: the first live match of the first of its
    selectors, in the given order, that has one. *)
Definition field_element (page : string -> list AsyncElement) (selectors : list string)
  : option AsyncElement :=
  match find (has_match page) selectors with
  | Some selector => head (page selector)
  | None => None
  end.

(** The selectors of a field that are tried: all up to the first that matches,
    that one included, and none after it. *)
Fixpoint tried (page : string -> list AsyncElement) (selectors : list string) : list string :=
  match selectors with
  | [] => []
  | selector :: rest =>
      selector :: (if has_match page selector then [] else tried page rest)
  end.

(** What one round of the outer loop does to [result]. *)
Definition bind_field (page : string -> list AsyncElement)
           (result : gmap string AsyncElement) (item : string * list string)
  : gmap string AsyncElement :=
  match field_element page (snd item) with
  | Some e => <[fst item := e]> result
  | None => result
  end.

(** The events [delta] of a run and its result [r]: no request in [delta] was
    answered [impossible], or only the last event of [delta] is such a
    request and the run returned [None]. *)
Definition stops_at_impossible (delta : list Event) (r : Result Outcome) : Prop :=
  Forall (fun ev => is_impossible ev = false) delta \/
  exists pre ev,
    delta = pre ++ [ev] /\
    Forall (fun ev' => is_impossible ev' = false) pre /\
    is_impossible ev = true /\
    r = Ok NoneValue.

(** The last part of [_get_element], from the comment "Now that no cached
    selectors were found or they failed repeatedly" on: the discovery tier run
    with [budget], and [None] in place of a falsy result. *)
Definition discovery_tier (C : Collaborators) (prompt_or_elements : Prompt)
           (only_one : bool) (budget : Z) : M Outcome :=
  res <- attempt_with_backoff C prompt_or_elements only_one (browser_api_config C)
                              budget false ;;
  if truthy C res then ret res else ret NoneValue.

(** The request [test_if_cache_available] sends to the cache service. *)
Definition probe_dto (prompt_or_elements : Prompt) (page_information : PageInformation)
  : CheckSelectorCacheDTO.t :=
  {| CheckSelectorCacheDTO.url := url page_information;
     CheckSelectorCacheDTO.prompt := prompt_or_elements |}.

(** The world once a call has answered [reply] after [took] ms. *)
Definition after_call (w : World) (ev : Event) (took : Z) : World :=
  {| now := now w + took; trace := trace w ++ [ev] |}.

(** ** The conversation of a run of the backoff loop *)

Definition is_page_information (ev : Event) : bool :=
  match ev with EvPageInformation _ _ => true | _ => false end.

(** The event [ev] is a call that raised [e]. *)
Definition raised (ev : Event) (e : Exn) : Prop :=
  match ev with
  | EvPageInformation _ (Raise e')
  | EvCheckSelectorCache _ (Raise e')
  | EvInteractionsSelector _ (Raise e')
  | EvAllElements _ (Raise e') => e' = e
  | _ => False
  end.

(** What a run of the loop over [intervals] can add to the log, and what it
    then returns.  A round fetches the page information, sends the request
    built from it, and queries the page; it is the last one when a call
    raises, when the answer is [impossible], or when a truthy outcome was
    assembled; otherwise a sleep follows and the rounds of the remaining
    intervals.  The loop may also stop before any round (budget or schedule
    used up). *)
Inductive loop_log (C : Collaborators) (p : Prompt) (only_one : bool) (cfg : APIConfig)
          (cache_only : bool) : list Z -> list Event -> Result Outcome -> Prop :=
| log_stop intervals :
    loop_log C p only_one cfg cache_only intervals [] (Ok NoneValue)
| log_no_page current rest e :
    loop_log C p only_one cfg cache_only (current :: rest)
      [EvPageInformation (negb cache_only) (Raise e)] (Raise e)
| log_no_answer current rest info e :
    loop_log C p only_one cfg cache_only (current :: rest)
      [EvPageInformation (negb cache_only) (Ok info);
       EvInteractionsSelector (request_dto p only_one cfg cache_only info) (Raise e)]
      (Raise e)
| log_impossible current rest info res :
    status res = "impossible" ->
    loop_log C p only_one cfg cache_only (current :: rest)
      [EvPageInformation (negb cache_only) (Ok info);
       EvInteractionsSelector (request_dto p only_one cfg cache_only info) (Ok res)]
      (Ok NoneValue)
| log_found current rest info res queries response :
    status res = "success" ->
    Forall (fun ev => is_query ev = true) queries ->
    truthy C response = true ->
    loop_log C p only_one cfg cache_only (current :: rest)
      (EvPageInformation (negb cache_only) (Ok info)
       :: EvInteractionsSelector (request_dto p only_one cfg cache_only info) (Ok res)
       :: queries)
      (Ok response)
| log_page_raised current rest info res queries selector e :
    status res = "success" ->
    Forall (fun ev => is_query ev = true) queries ->
    loop_log C p only_one cfg cache_only (current :: rest)
      (EvPageInformation (negb cache_only) (Ok info)
       :: EvInteractionsSelector (request_dto p only_one cfg cache_only info) (Ok res)
       :: queries ++ [EvAllElements selector (Raise e)])
      (Raise e)
| log_next current rest info res queries d delta r :
    status res <> "impossible" ->
    (queries <> [] -> status res = "success") ->
    Forall (fun ev => is_query ev = true) queries ->
    0 <= d ->
    loop_log C p only_one cfg cache_only rest delta r ->
    loop_log C p only_one cfg cache_only (current :: rest)
      (EvPageInformation (negb cache_only) (Ok info)
       :: EvInteractionsSelector (request_dto p only_one cfg cache_only info) (Ok res)
       :: queries ++ EvSleep d :: delta)
      r.

(** The page driver answering that nothing matches [selector]. *)
Definition no_match (selector : string) : Event := EvAllElements selector (Ok []).

(** The events a run that took the world from [w] to [w'] added to the log. *)
Definition added (w w' : World) : list Event := drop (length (trace w)) (trace w').

(** What every call of a run of the loop looks like: the page information is
    fetched with a screenshot exactly when the loop is not cache-only, a
    request carries the prompt, the configuration, [only_one] and, as both of
    its cache flags, [cache_only]; the cache service is not asked. *)
Definition tier_event (p : Prompt) (only_one : bool) (cfg : APIConfig) (cache_only : bool)
           (ev : Event) : Prop :=
  match ev with
  | EvPageInformation include_screenshot _ => include_screenshot = negb cache_only
  | EvInteractionsSelector dto _ =>
      GetElementsDTO.prompt dto = p /\
      GetElementsDTO.api_config dto = cfg /\
      GetElementsDTO.only_one dto = only_one /\
      GetElementsDTO.use_cache dto = cache_only /\
      GetElementsDTO.force_use_cache dto = cache_only
  | EvCheckSelectorCache _ _ => False
  | EvAllElements _ _ | EvSleep _ => True
  end.

(** The time a run of the loop sleeps when every attempt fails at once: the
    interval of each attempt that starts before the budget is used up. *)
Fixpoint slept (remaining elapsed : Z) (intervals : list Z) : Z :=
  match intervals with
  | [] => 0
  | current :: rest =>
      if remaining <=? elapsed then 0
      else Z.max 0 current + slept remaining (elapsed + Z.max 0 current) rest
  end.

(** A cached selector exists and is still good: every resolution proposes
    [["#b", "#a"]] and [#a] matches two elements of the page. *)
Definition cache_hit : Collaborators :=
  scripted page_a (Ok true) (fun _ => Ok (success_response (SelList ["#b"; "#a"]))) 0 0.

(** The outcomes a call with the flag [only_one] can have: a single element
    only when the flag is set, a list only when it is not, and then not the
    empty list. *)
Definition shaped (only_one : bool) (r : Outcome) : Prop :=
  match r with
  | OneElement _ => only_one = true
  | ElementList l => only_one = false /\ l <> []
  | NoneValue | ElementsResponse _ => True
  end.

(** A selector is cached, but the first resolution, the one of the cache
    tier, is [impossible]; the later ones fail. *)
Definition cache_impossible : Collaborators :=
  scripted empty_page (Ok true)
           (fun n => Ok (if Nat.eqb n 0 then impossible_response else failure_response)) 0 0.



(** * Properties *)

(** ** Running the monad *)

Lemma bind_ok {A B : Type} (m : M A) (k : A -> M B) w a w' :
  m w = (Ok a, w') -> bind m k w = k a w'.
Proof. intros H. unfold bind. now rewrite H. Qed.

Lemma bind_raise {A B : Type} (m : M A) (k : A -> M B) w e w' :
  m w = (Raise e, w') -> bind m k w = (Raise e, w').
Proof. intros H. unfold bind. now rewrite H. Qed.

Lemma call_run {A : Type} (ev : Result A -> Event) f w reply took :
  f w = (reply, took) -> call ev f w = (reply, after_call w (ev reply) took).
Proof. intros H. unfold call. now rewrite H. Qed.

Lemma queried_app tr1 tr2 : queried (tr1 ++ tr2) = queried tr1 ++ queried tr2.
Proof.
  induction tr1 as [|ev tr1 IH]; simpl; [reflexivity|].
  destruct ev; simpl; rewrite IH; reflexivity.
Qed.

Lemma count_app p tr1 tr2 : count p (tr1 ++ tr2) = (count p tr1 + count p tr2)%nat.
Proof. unfold count. now rewrite filter_app, length_app. Qed.

(** On a page that does not change, one query of the page driver. *)
Lemma query_static C page selector w :
  answers_from C page ->
  exists took,
    _get_all_elements_from_selector C selector w
    = (Ok (page selector), after_call w (EvAllElements selector (Ok (page selector))) took).
Proof.
  intros Hpage. unfold _get_all_elements_from_selector.
  destruct (page_get_all_elements_from_selector C selector w) as [reply took] eqn:E.
  specialize (Hpage selector w). rewrite E in Hpage. simpl in Hpage. subst reply.
  exists took. now apply call_run.
Qed.

(** ** The list branch of [get_elements_from_selectors] *)

(** Selectors without a live match are stepped over, one query each. *)
Lemma first_live_skip C page only_one skipped rest w :
  answers_from C page ->
  Forall (fun s => page s = []) skipped ->
  exists w1,
    first_live C only_one (skipped ++ rest) w = first_live C only_one rest w1 /\
    queried (trace w1) = queried (trace w) ++ skipped.
Proof.
  intros Hpage Hskip. revert w.
  induction Hskip as [|s skipped Hs _ IH]; intros w; simpl.
  - exists w. now rewrite app_nil_r.
  - destruct (query_static C page s w Hpage) as [took Hq].
    rewrite (bind_ok _ _ _ _ _ Hq), Hs.
    destruct (IH (after_call w (EvAllElements s (Ok [])) took)) as [w1 [Hrun Htr]].
    rewrite Hs in Hq. exists w1. split; [exact Hrun|].
    rewrite Htr. simpl. rewrite queried_app. simpl. now rewrite <- app_assoc.
Qed.

Lemma first_live_hit C page only_one s rest e els w :
  answers_from C page ->
  page s = e :: els ->
  exists w1,
    first_live C only_one (s :: rest) w
    = (Ok (if only_one then OneElement e else ElementList (e :: els)), w1) /\
    queried (trace w1) = queried (trace w) ++ [s].
Proof.
  intros Hpage Hs. simpl.
  destruct (query_static C page s w Hpage) as [took Hq].
  rewrite (bind_ok _ _ _ _ _ Hq), Hs.
  eexists. split; [reflexivity|].
  simpl. rewrite queried_app. reflexivity.
Qed.

(** C6. On a list-shaped resolution the candidate selectors are tried from the
    last to the first.  If [s] is the rightmost selector with a live match,
    the selectors after it are tried in reverse order, then [s], and nothing
    else; the outcome is the first element matched by [s] when [only_one],
    else all the elements matched by [s].  If no selector matches, all are
    tried, in reverse order, and the outcome is [None]. *)
Theorem list_branch_rightmost_match C page res only_one l w :
  answers_from C page ->
  selectors res = SelList l ->
  (forall before s after e els,
      l = before ++ s :: after ->
      Forall (fun s' => page s' = []) after ->
      page s = e :: els ->
      exists w',
        get_elements_from_selectors C res only_one w
        = (Ok (if only_one then OneElement e else ElementList (e :: els)), w') /\
        queried (trace w') = queried (trace w) ++ rev after ++ [s]) /\
  (Forall (fun s => page s = []) l ->
   exists w',
     get_elements_from_selectors C res only_one w = (Ok NoneValue, w') /\
     queried (trace w') = queried (trace w) ++ rev l).
Proof.
  intros Hpage Hsel. unfold get_elements_from_selectors. rewrite Hsel. split.
  - intros before s after e els -> Hafter Hs.
    rewrite rev_app_distr. simpl. rewrite <- app_assoc. simpl.
    assert (Hrev : Forall (fun s' => page s' = []) (rev after)).
    { apply Forall_forall. intros x Hx. rewrite Forall_forall in Hafter.
      apply Hafter. now apply list_elem_of_In, in_rev, list_elem_of_In in Hx. }
    destruct (first_live_skip C page only_one (rev after) (s :: rev before) w Hpage Hrev)
      as [w1 [Hrun Htr]].
    destruct (first_live_hit C page only_one s (rev before) e els w1 Hpage Hs)
      as [w2 [Hrun2 Htr2]].
    exists w2. split; [now rewrite Hrun|].
    rewrite Htr2, Htr. now rewrite <- app_assoc.
  - intros Hnone.
    assert (Hrev : Forall (fun s' => page s' = []) (rev l)).
    { apply Forall_forall. intros x Hx. rewrite Forall_forall in Hnone.
      apply Hnone. now apply list_elem_of_In, in_rev, list_elem_of_In in Hx. }
    destruct (first_live_skip C page only_one (rev l) [] w Hpage Hrev) as [w1 [Hrun Htr]].
    rewrite app_nil_r in Hrun. exists w1. split; [now rewrite Hrun|exact Htr].
Qed.

(** Witness of C6: selectors [#a; #b; #c] on a page where only [#a] matches. *)
Lemma list_branch_rightmost_match_witness :
  exists w',
    get_elements_from_selectors
      (scripted page_a (Ok false) (fun _ => Ok failure_response) 0 0)
      (success_response (SelList ["#a"; "#b"; "#c"])) true w0
    = (Ok (OneElement (el 1)), w') /\
    queried (trace w') = queried (trace w0) ++ rev ["#b"; "#c"] ++ ["#a"].
Proof.
  apply (proj1 (list_branch_rightmost_match
                  (scripted page_a (Ok false) (fun _ => Ok failure_response) 0 0)
                  page_a (success_response (SelList ["#a"; "#b"; "#c"])) true
                  ["#a"; "#b"; "#c"] w0
                  (fun _ _ => eq_refl) eq_refl)
               [] "#a" ["#b"; "#c"] (el 1) [el 2] eq_refl).
  - repeat constructor.
  - reflexivity.
Defined.

(** ** The dict branch of [get_elements_from_selectors] *)

Lemma field_element_cons page s rest :
  field_element page (s :: rest)
  = match page s with e :: _ => Some e | [] => field_element page rest end.
Proof.
  unfold field_element. simpl. unfold has_match at 1.
  destruct (page s) as [|e els] eqn:Hs; [reflexivity|]. now rewrite Hs.
Qed.

Lemma tried_cons page s rest :
  tried page (s :: rest) = s :: match page s with _ :: _ => [] | [] => tried page rest end.
Proof. simpl. unfold has_match at 1. now destruct (page s). Qed.

Lemma first_match_static C page selectors w :
  answers_from C page ->
  exists w',
    first_match C selectors w = (Ok (field_element page selectors), w') /\
    queried (trace w') = queried (trace w) ++ tried page selectors.
Proof.
  intros Hpage. revert w.
  induction selectors as [|s rest IH]; intros w.
  - exists w. simpl. now rewrite app_nil_r.
  - rewrite field_element_cons, tried_cons. simpl.
    destruct (query_static C page s w Hpage) as [took Hq].
    rewrite (bind_ok _ _ _ _ _ Hq).
    destruct (page s) as [|e els] eqn:Hs.
    + destruct (IH (after_call w (EvAllElements s (Ok [])) took)) as [w' [Hrun Htr]].
      exists w'. split; [exact Hrun|].
      rewrite Htr. simpl. rewrite queried_app. simpl. now rewrite <- app_assoc.
    + eexists. split; [reflexivity|].
      simpl. now rewrite queried_app.
Qed.

Lemma fill_fields_static C page items result w :
  answers_from C page ->
  exists w',
    fill_fields C items result w = (Ok (fold_left (bind_field page) items result), w') /\
    queried (trace w')
    = queried (trace w) ++ concat (map (fun item => tried page (snd item)) items).
Proof.
  intros Hpage. revert result w.
  induction items as [|[key sels] rest IH]; intros result w; simpl.
  - exists w. now rewrite app_nil_r.
  - destruct (first_match_static C page sels w Hpage) as [w1 [Hrun1 Htr1]].
    rewrite (bind_ok _ _ _ _ _ Hrun1).
    destruct (IH (bind_field page result (key, sels)) w1) as [w' [Hrun Htr]].
    exists w'. split.
    + unfold bind_field in Hrun at 1. simpl in Hrun. exact Hrun.
    + rewrite Htr, Htr1. now rewrite <- app_assoc.
Qed.

Lemma bind_fields_other page items (result : gmap string AsyncElement) key :
  key ∉ items.*1 ->
  fold_left (bind_field page) items result !! key = result !! key.
Proof.
  revert result. induction items as [|[k sels] rest IH]; intros result Hkey; simpl.
  - reflexivity.
  - rewrite fmap_cons in Hkey. simpl in Hkey.
    apply not_elem_of_cons in Hkey as [Hne Hrest].
    rewrite IH by exact Hrest.
    unfold bind_field. simpl.
    destruct (field_element page sels); [|reflexivity].
    now apply lookup_insert_ne.
Qed.

Lemma bind_fields_lookup page items (result : gmap string AsyncElement) key sels :
  NoDup (items.*1) ->
  (key, sels) ∈ items ->
  fold_left (bind_field page) items result !! key
  = match field_element page sels with
    | Some e => Some e
    | None => result !! key
    end.
Proof.
  revert result. induction items as [|[k ss] rest IH]; intros result Hnd Hin; simpl.
  - now apply elem_of_nil in Hin.
  - rewrite fmap_cons in Hnd. simpl in Hnd. apply NoDup_cons in Hnd as [Hk Hnd].
    apply elem_of_cons in Hin as [Heq|Hin].
    + inversion Heq; subst k ss.
      rewrite bind_fields_other by exact Hk.
      unfold bind_field. simpl.
      destruct (field_element page sels); [apply lookup_insert_eq|reflexivity].
    + rewrite IH by assumption.
      destruct (field_element page sels); [reflexivity|].
      unfold bind_field. simpl.
      destruct (field_element page ss); [|reflexivity].
      apply lookup_insert_ne. intros ->. apply Hk.
      apply list_elem_of_fmap. exists (key, sels). split; [reflexivity|exact Hin].
Qed.

Lemma field_element_hit page before s after e els :
  Forall (fun s' => page s' = []) before ->
  page s = e :: els ->
  field_element page (before ++ s :: after) = Some e.
Proof.
  intros Hbefore Hs. induction Hbefore as [|s' before Hs' _ IH]; simpl.
  - now rewrite field_element_cons, Hs.
  - now rewrite field_element_cons, Hs'.
Qed.

Lemma field_element_none page selectors :
  Forall (fun s => page s = []) selectors ->
  field_element page selectors = None.
Proof.
  intros Hnone. induction Hnone as [|s rest Hs _ IH]; [reflexivity|].
  now rewrite field_element_cons, Hs.
Qed.

(** C7. On a dict-shaped resolution each field is handled on its own, its
    selectors tried in the given order: the field is bound to the first live
    match of the first selector that has one (whatever comes after it in the
    list), a field none of whose selectors matches is left out, and so is
    every name that is not a field.  The page driver is asked, field by
    field, about the selectors up to the first that matches and about none
    after it. *)
Theorem dict_branch_first_match_per_field C page res only_one items w :
  answers_from C page ->
  selectors res = SelDict items ->
  NoDup (items.*1) ->
  exists data w',
    get_elements_from_selectors C res only_one w = (Ok (ElementsResponse data), w') /\
    (forall key before s after e els,
        (key, before ++ s :: after) ∈ items ->
        Forall (fun s' => page s' = []) before ->
        page s = e :: els ->
        data !! key = Some e) /\
    (forall key sels,
        (key, sels) ∈ items ->
        Forall (fun s => page s = []) sels ->
        data !! key = None) /\
    (forall key, key ∉ items.*1 -> data !! key = None) /\
    queried (trace w')
    = queried (trace w) ++ concat (map (fun item => tried page (snd item)) items).
Proof.
  intros Hpage Hsel Hnd. unfold get_elements_from_selectors. rewrite Hsel.
  destruct (fill_fields_static C page items ∅ w Hpage) as [w' [Hrun Htr]].
  exists (fold_left (bind_field page) items ∅), w'.
  split; [now rewrite (bind_ok _ _ _ _ _ Hrun)|].
  split; [|split; [|split]].
  - intros key before s after e els Hin Hbefore Hs.
    rewrite (bind_fields_lookup page items ∅ key _ Hnd Hin).
    now rewrite (field_element_hit page before s after e els Hbefore Hs).
  - intros key sels Hin Hnone.
    rewrite (bind_fields_lookup page items ∅ key _ Hnd Hin).
    rewrite (field_element_none page sels Hnone). apply lookup_empty.
  - intros key Hkey. rewrite bind_fields_other by exact Hkey. apply lookup_empty.
  - exact Htr.
Qed.

(** Witness of C7: [{"name": ["#n1", "#n2"], "email": ["#e1"]}] on a page where
    [#n2] and [#e1] match and [#n1] does not. *)
Lemma dict_branch_first_match_per_field_witness :
  exists data w',
    get_elements_from_selectors
      (scripted page_form (Ok false) (fun _ => Ok failure_response) 0 0)
      (success_response (SelDict [("name", ["#n1"; "#n2"]); ("email", ["#e1"])])) false w0
    = (Ok (ElementsResponse data), w') /\
    data !! "name" = Some (el 20) /\
    data !! "email" = Some (el 30) /\
    data !! "phone" = None /\
    queried (trace w') = ["#n1"; "#n2"; "#e1"].
Proof.
  destruct (dict_branch_first_match_per_field
              (scripted page_form (Ok false) (fun _ => Ok failure_response) 0 0)
              page_form
              (success_response (SelDict [("name", ["#n1"; "#n2"]); ("email", ["#e1"])]))
              false [("name", ["#n1"; "#n2"]); ("email", ["#e1"])] w0)
    as [data [w' [Hrun [Hhit [_ [Hother Htr]]]]]].
  - intros s w. reflexivity.
  - reflexivity.
  - apply (bool_decide_unpack _). vm_compute. reflexivity.
  - exists data, w'. split; [exact Hrun|]. split; [|split; [|split]].
    + apply (Hhit "name" ["#n1"] "#n2" [] (el 20) [el 21]).
      * apply list_elem_of_In. simpl. left. reflexivity.
      * repeat constructor.
      * reflexivity.
    + apply (Hhit "email" [] "#e1" [] (el 30) []).
      * apply list_elem_of_In. simpl. right. left. reflexivity.
      * constructor.
      * reflexivity.
    + apply Hother. apply (bool_decide_unpack _). vm_compute. reflexivity.
    + exact Htr.
Defined.

(** ** The dict branch never yields [None] *)

Lemma first_match_returns C selectors w :
  page_never_raises C ->
  exists found w', first_match C selectors w = (Ok found, w').
Proof.
  intros Hpage. revert w. induction selectors as [|s rest IH]; intros w; simpl.
  - now exists None, w.
  - unfold _get_all_elements_from_selector at 1.
    destruct (page_get_all_elements_from_selector C s w) as [reply took] eqn:E.
    destruct (Hpage s w) as [l Hl]. rewrite E in Hl. simpl in Hl. subst reply.
    rewrite (bind_ok _ _ _ _ _ (call_run _ _ _ _ _ E)).
    destruct l as [|e els]; [apply IH|]. now eexists _, _.
Qed.

Lemma fill_fields_returns C items result w :
  page_never_raises C ->
  exists data w', fill_fields C items result w = (Ok data, w').
Proof.
  intros Hpage. revert result w.
  induction items as [|[key sels] rest IH]; intros result w; simpl.
  - now exists result, w.
  - destruct (first_match_returns C sels w Hpage) as [found [w1 Hrun]].
    rewrite (bind_ok _ _ _ _ _ Hrun). apply IH.
Qed.

(** C10. On a dict-shaped resolution, [get_elements_from_selectors] returns an
    [AsyncElementsResponse] (as long as the page driver answers), with no
    field at all when nothing matches, and never [None]; whenever
    [get_elements_from_selectors] returns [None], the resolution was
    list-shaped. *)
Theorem dict_branch_never_none C res only_one w :
  (forall items,
      selectors res = SelDict items ->
      page_never_raises C ->
      exists data w',
        get_elements_from_selectors C res only_one w = (Ok (ElementsResponse data), w')) /\
  (forall items page,
      selectors res = SelDict items ->
      answers_from C page ->
      Forall (fun item => Forall (fun s => page s = []) (snd item)) items ->
      exists w',
        get_elements_from_selectors C res only_one w = (Ok (ElementsResponse ∅), w')) /\
  (forall w',
      get_elements_from_selectors C res only_one w = (Ok NoneValue, w') ->
      exists l, selectors res = SelList l).
Proof.
  unfold get_elements_from_selectors. split; [|split].
  - intros items Hsel Hpage. rewrite Hsel.
    destruct (fill_fields_returns C items ∅ w Hpage) as [data [w' Hrun]].
    exists data, w'. now rewrite (bind_ok _ _ _ _ _ Hrun).
  - intros items page Hsel Hpage Hnone. rewrite Hsel.
    destruct (fill_fields_static C page items ∅ w Hpage) as [w' [Hrun _]].
    exists w'. rewrite (bind_ok _ _ _ _ _ Hrun). unfold ret. do 3 f_equal.
    clear Hrun Hsel. generalize (∅ : gmap string AsyncElement) as m.
    induction Hnone as [|[key sels] rest Hsels _ IH]; intros m; simpl; [reflexivity|].
    unfold bind_field at 2. simpl in *. rewrite (field_element_none page sels Hsels).
    apply IH.
  - intros w' Hrun. destruct (selectors res) as [l|items]; [now exists l|].
    exfalso. unfold bind in Hrun.
    destruct (fill_fields C items ∅ w) as [[data|e] w1]; discriminate.
Qed.

(** Witness of C10: a dict-shaped resolution none of whose selectors matches,
    and a list-shaped one that yields [None]. *)
Lemma dict_branch_never_none_witness :
  (exists data w',
      get_elements_from_selectors
        (scripted empty_page (Ok true) (fun _ => Ok failure_response) 0 0)
        (success_response (SelDict [("name", ["#n1"; "#n2"])])) false w0
      = (Ok (ElementsResponse data), w')) /\
  (exists w',
      get_elements_from_selectors
        (scripted empty_page (Ok true) (fun _ => Ok failure_response) 0 0)
        (success_response (SelDict [("name", ["#n1"; "#n2"])])) false w0
      = (Ok (ElementsResponse ∅), w')) /\
  (exists l, selectors (success_response (SelList ["#a"])) = SelList l).
Proof.
  split; [|split].
  - apply (proj1 (dict_branch_never_none
                    (scripted empty_page (Ok true) (fun _ => Ok failure_response) 0 0)
                    (success_response (SelDict [("name", ["#n1"; "#n2"])])) false w0)
                 [("name", ["#n1"; "#n2"])] eq_refl).
    intros s w. exists []. reflexivity.
  - apply (proj1 (proj2 (dict_branch_never_none
                    (scripted empty_page (Ok true) (fun _ => Ok failure_response) 0 0)
                    (success_response (SelDict [("name", ["#n1"; "#n2"])])) false w0))
                 [("name", ["#n1"; "#n2"])] empty_page eq_refl).
    + intros s w. reflexivity.
    + repeat constructor.
  - apply (proj2 (proj2 (dict_branch_never_none
                    (scripted empty_page (Ok true) (fun _ => Ok failure_response) 0 0)
                    (success_response (SelList ["#a"])) false w0))
                 (after_call w0 (EvAllElements "#a" (Ok [])) 0)).
    reflexivity.
Defined.

(** ** What [get_elements_from_selectors] adds to the log *)

Lemma call_trace {A : Type} (ev : Result A -> Event) f w :
  trace (snd (call ev f w)) = trace w ++ [ev (fst (call ev f w))].
Proof. unfold call. now destruct (f w). Qed.

Lemma first_match_trace C selectors w :
  exists delta,
    trace (snd (first_match C selectors w)) = trace w ++ delta /\
    Forall (fun ev => is_query ev = true) delta.
Proof.
  revert w. induction selectors as [|s rest IH]; intros w; simpl.
  - exists []. split; [now rewrite app_nil_r|constructor].
  - unfold bind, _get_all_elements_from_selector, call.
    destruct (page_get_all_elements_from_selector C s w) as [[[|e els]|exn] took].
    + destruct (IH (after_call w (EvAllElements s (Ok [])) took)) as [delta [Htr Hq]].
      exists (EvAllElements s (Ok []) :: delta). split.
      * unfold after_call in Htr. rewrite Htr. simpl. now rewrite <- app_assoc.
      * now constructor.
    + exists [EvAllElements s (Ok (e :: els))]. split; [reflexivity|now repeat constructor].
    + exists [EvAllElements s (Raise exn)]. split; [reflexivity|now repeat constructor].
Qed.

Lemma fill_fields_trace C items result w :
  exists delta,
    trace (snd (fill_fields C items result w)) = trace w ++ delta /\
    Forall (fun ev => is_query ev = true) delta.
Proof.
  revert result w. induction items as [|[key sels] rest IH]; intros result w; simpl.
  - exists []. split; [now rewrite app_nil_r|constructor].
  - unfold bind at 1.
    destruct (first_match_trace C sels w) as [d1 [Htr1 Hq1]].
    destruct (first_match C sels w) as [[found|exn] w1]; simpl in Htr1.
    + destruct (IH (match found with Some e => <[key:=e]> result | None => result end) w1)
        as [d2 [Htr2 Hq2]].
      exists (d1 ++ d2). split.
      * rewrite Htr2, Htr1. now rewrite <- app_assoc.
      * now apply Forall_app.
    + now exists d1.
Qed.

Lemma first_live_trace C only_one selectors w :
  exists delta,
    trace (snd (first_live C only_one selectors w)) = trace w ++ delta /\
    Forall (fun ev => is_query ev = true) delta.
Proof.
  revert w. induction selectors as [|s rest IH]; intros w; simpl.
  - exists []. split; [now rewrite app_nil_r|constructor].
  - unfold bind, _get_all_elements_from_selector, call.
    destruct (page_get_all_elements_from_selector C s w) as [[[|e els]|exn] took].
    + destruct (IH (after_call w (EvAllElements s (Ok [])) took)) as [delta [Htr Hq]].
      exists (EvAllElements s (Ok []) :: delta). split.
      * unfold after_call in Htr. rewrite Htr. simpl. now rewrite <- app_assoc.
      * now constructor.
    + exists [EvAllElements s (Ok (e :: els))]. split; [reflexivity|now repeat constructor].
    + exists [EvAllElements s (Raise exn)]. split; [reflexivity|now repeat constructor].
Qed.

(** [get_elements_from_selectors] talks to the page driver only. *)
Lemma get_elements_from_selectors_trace C res only_one w :
  exists delta,
    trace (snd (get_elements_from_selectors C res only_one w)) = trace w ++ delta /\
    Forall (fun ev => is_query ev = true) delta.
Proof.
  unfold get_elements_from_selectors. destruct (selectors res) as [l|items].
  - apply first_live_trace.
  - unfold bind. destruct (fill_fields_trace C items ∅ w) as [delta H].
    destruct (fill_fields C items ∅ w) as [[data|exn] w1]; now exists delta.
Qed.

(** ** One round of the backoff loop *)

(** The first round of the loop, spelled out on what the collaborators
    answer. *)
Lemma backoff_loop_cons C p only_one cfg remaining cache_only start current rest elapsed w :
  backoff_loop C p only_one cfg remaining cache_only start (current :: rest) elapsed w =
  if remaining <=? elapsed then (Ok NoneValue, w)
  else
    match page_get_page_information C (negb cache_only) w with
    | (Raise e, d1) =>
        (Raise e, after_call w (EvPageInformation (negb cache_only) (Raise e)) d1)
    | (Ok info, d1) =>
        let w1 := after_call w (EvPageInformation (negb cache_only) (Ok info)) d1 in
        let dto := request_dto p only_one cfg cache_only info in
        match client_get_interactions_selector C dto w1 with
        | (Raise e, d2) => (Raise e, after_call w1 (EvInteractionsSelector dto (Raise e)) d2)
        | (Ok res, d2) =>
            let w2 := after_call w1 (EvInteractionsSelector dto (Ok res)) d2 in
            if String.eqb (status res) "impossible" then (Ok NoneValue, w2)
            else
              match (if String.eqb (status res) "success"
                     then get_elements_from_selectors C res only_one w2
                     else (Ok NoneValue, w2)) with
              | (Raise e, w3) => (Raise e, w3)
              | (Ok response, w3) =>
                  if String.eqb (status res) "success" && truthy C response
                  then (Ok response, w3)
                  else
                    let d := Z.max 0 (current - (now w2 - now w)) in
                    backoff_loop C p only_one cfg remaining cache_only start rest
                                 (now w3 + d - start) (after_call w3 (EvSleep d) d)
              end
        end
    end.
Proof.
  simpl. destruct (remaining <=? elapsed); [reflexivity|].
  unfold bind at 1, time_time at 1.
  unfold bind at 1, get_page_information, call.
  destruct (page_get_page_information C (negb cache_only) w) as [[info|e] d1];
    [|reflexivity].
  unfold bind at 1, get_interactions_selector, call. simpl.
  destruct (client_get_interactions_selector C _ _) as [[res|e] d2]; [|reflexivity].
  unfold bind at 1, time_time at 1. simpl.
  destruct (String.eqb (status res) "impossible"); [reflexivity|].
  unfold bind at 1.
  destruct (String.eqb (status res) "success"); simpl.
  - destruct (get_elements_from_selectors C res only_one _) as [[response|e] w3];
      [|reflexivity].
    destruct (truthy C response); reflexivity.
  - reflexivity.
Qed.

(** ** A response [impossible] ends the loop *)

Lemma query_not_impossible delta :
  Forall (fun ev => is_query ev = true) delta ->
  Forall (fun ev => is_impossible ev = false) delta.
Proof.
  intros H. eapply Forall_impl; [exact H|].
  intros [] Hq; try discriminate Hq; reflexivity.
Qed.

Lemma stops_at_impossible_prepend quiet delta r :
  Forall (fun ev => is_impossible ev = false) quiet ->
  stops_at_impossible delta r ->
  stops_at_impossible (quiet ++ delta) r.
Proof.
  intros Hquiet [Hnone|(pre & ev & -> & Hpre & Hev & Hr)].
  - left. now apply Forall_app.
  - right. exists (quiet ++ pre), ev. rewrite <- app_assoc.
    repeat split; try assumption. now apply Forall_app.
Qed.

Lemma backoff_loop_stops_at_impossible C p only_one cfg remaining cache_only start
      intervals elapsed w :
  exists delta,
    trace (snd (backoff_loop C p only_one cfg remaining cache_only start intervals elapsed w))
    = trace w ++ delta /\
    stops_at_impossible delta
      (fst (backoff_loop C p only_one cfg remaining cache_only start intervals elapsed w)).
Proof.
  revert elapsed w. induction intervals as [|current rest IH]; intros elapsed w.
  - exists []. simpl. split; [now rewrite app_nil_r|left; constructor].
  - rewrite backoff_loop_cons.
    destruct (remaining <=? elapsed).
    { exists []. simpl. split; [now rewrite app_nil_r|left; constructor]. }
    destruct (page_get_page_information C (negb cache_only) w) as [[info|e] d1].
    2:{ eexists [_]. split; [reflexivity|left; now repeat constructor]. }
    cbv zeta.
    destruct (client_get_interactions_selector C _ _) as [[res|e] d2].
    2:{ eexists [_; _]. simpl. rewrite <- app_assoc. split; [reflexivity|].
        left; now repeat constructor. }
    destruct (String.eqb (status res) "impossible") eqn:Himp.
    { eexists [_; _]. simpl. rewrite <- app_assoc. split; [reflexivity|].
      right. eexists [_], _. split; [reflexivity|].
      repeat split; [now repeat constructor|exact Himp]. }
    set (w1 := after_call w _ d1).
    set (w2 := after_call w1 _ d2).
    assert (Hw2 : exists quiet, trace w2 = trace w ++ quiet /\
                                Forall (fun ev => is_impossible ev = false) quiet).
    { eexists [_; _]. subst w2 w1. simpl. rewrite <- app_assoc. split; [reflexivity|].
      repeat constructor. simpl. exact Himp. }
    destruct Hw2 as (quiet & Hquiet & Hq).
    assert (Hw3 : exists quiet3,
               trace (snd (if String.eqb (status res) "success"
                           then get_elements_from_selectors C res only_one w2
                           else (Ok NoneValue, w2))) = trace w ++ quiet3 /\
               Forall (fun ev => is_impossible ev = false) quiet3).
    { destruct (String.eqb (status res) "success").
      - destruct (get_elements_from_selectors_trace C res only_one w2) as (dq & Hdq & Hqq).
        exists (quiet ++ dq). rewrite Hdq, Hquiet, <- app_assoc. split; [reflexivity|].
        apply Forall_app. split; [exact Hq|now apply query_not_impossible].
      - now exists quiet. }
    destruct Hw3 as (quiet3 & Hquiet3 & Hq3).
    destruct (if String.eqb (status res) "success"
              then get_elements_from_selectors C res only_one w2
              else (Ok NoneValue, w2)) as [[response|e] w3]; simpl in Hquiet3.
    2:{ exists quiet3. split; [exact Hquiet3|now left]. }
    destruct (String.eqb (status res) "success" && truthy C response).
    { exists quiet3. split; [exact Hquiet3|now left]. }
    set (d := Z.max 0 (current - (now w2 - now w))).
    destruct (IH (now w3 + d - start) (after_call w3 (EvSleep d) d)) as (delta & Htr & Hstop).
    exists ((quiet3 ++ [EvSleep d]) ++ delta). split.
    + rewrite Htr. simpl. rewrite Hquiet3. now rewrite <- !app_assoc.
    + apply stops_at_impossible_prepend; [|exact Hstop].
      apply Forall_app. split; [exact Hq3|now repeat constructor].
Qed.

Lemma impossible_is_last (pre : list Event) ev before ev0 after :
  Forall (fun ev' => is_impossible ev' = false) pre ->
  pre ++ [ev] = before ++ ev0 :: after ->
  is_impossible ev0 = true ->
  after = [].
Proof.
  intros Hpre Heq Hev0.
  destruct after as [|x after _] using rev_ind; [reflexivity|].
  exfalso.
  assert (Heq' : pre ++ [ev] = (before ++ ev0 :: after) ++ [x]).
  { rewrite Heq. now rewrite <- app_assoc. }
  apply app_inj_tail in Heq' as [-> _].
  apply Forall_app in Hpre as [_ Hpre]. apply Forall_cons in Hpre as [Hpre _].
  congruence.
Qed.

(** C2. Whenever a resolution request of a run of [attempt_with_backoff] is
    answered with status [impossible], that request is the last thing the loop
    does (no further request, no sleep, no query of the page) and the loop
    returns [None] -- for every budget and wherever in the schedule the answer
    comes. *)
Theorem impossible_ends_the_loop C p only_one cfg remaining cache_only w
        before dto res after :
  trace (snd (attempt_with_backoff C p only_one cfg remaining cache_only w))
  = trace w ++ before ++ EvInteractionsSelector dto (Ok res) :: after ->
  status res = "impossible" ->
  after = [] /\
  fst (attempt_with_backoff C p only_one cfg remaining cache_only w) = Ok NoneValue.
Proof.
  intros Htrace Hstatus.
  unfold attempt_with_backoff in *. unfold bind at 1, time_time at 1 in Htrace.
  unfold bind at 1, time_time at 1.
  destruct (backoff_loop_stops_at_impossible C p only_one cfg remaining cache_only
              (now w) TIMEOUT_INTERVAL 0 w) as (delta & Htr & Hstop).
  rewrite Htr in Htrace. apply app_inv_head in Htrace. subst delta.
  assert (Himp : is_impossible (EvInteractionsSelector dto (Ok res)) = true).
  { simpl. now rewrite Hstatus. }
  destruct Hstop as [Hnone|(pre & ev & Heq & Hpre & Hev & Hr)].
  - exfalso. apply Forall_app in Hnone as [_ Hnone].
    apply Forall_cons in Hnone as [Hnone _]. congruence.
  - split; [|exact Hr].
    symmetry in Heq. exact (impossible_is_last pre ev before _ after Hpre Heq Himp).
Qed.

(** Witness of C2: the second resolution is [impossible]; the loop stops there,
    after two requests and one sleep. *)
Lemma impossible_ends_the_loop_witness :
  fst (attempt_with_backoff second_impossible (PromptStr "the login button") true
         (browser_api_config second_impossible) 15000 false w0) = Ok NoneValue /\
  count is_request
    (trace (snd (attempt_with_backoff second_impossible (PromptStr "the login button") true
                   (browser_api_config second_impossible) 15000 false w0))) = 2%nat.
Proof.
  split; [|reflexivity].
  apply (impossible_ends_the_loop second_impossible (PromptStr "the login button") true
           (browser_api_config second_impossible) 15000 false w0
           [EvPageInformation true (Ok (default_page_information true));
            EvInteractionsSelector
              (request_dto (PromptStr "the login button") true
                 (browser_api_config second_impossible) false (default_page_information true))
              (Ok failure_response);
            EvSleep 150;
            EvPageInformation true (Ok (default_page_information true))]
           (request_dto (PromptStr "the login button") true
              (browser_api_config second_impossible) false (default_page_information true))
           impossible_response []).
  - vm_compute. reflexivity.
  - reflexivity.
Defined.

(** ** A success whose selectors are stale *)

(** A round whose resolution has status [success] and whose assembled outcome
    is falsy does not return: it sleeps for what is left of the interval and
    goes on with the next interval. *)
Lemma stale_miss_continues C p only_one cfg remaining cache_only start current rest
      elapsed w info d1 res d2 response w3 :
  (remaining <=? elapsed) = false ->
  page_get_page_information C (negb cache_only) w = (Ok info, d1) ->
  client_get_interactions_selector C (request_dto p only_one cfg cache_only info)
    (after_call w (EvPageInformation (negb cache_only) (Ok info)) d1) = (Ok res, d2) ->
  status res = "success" ->
  get_elements_from_selectors C res only_one
    (after_call (after_call w (EvPageInformation (negb cache_only) (Ok info)) d1)
       (EvInteractionsSelector (request_dto p only_one cfg cache_only info) (Ok res)) d2)
  = (Ok response, w3) ->
  truthy C response = false ->
  backoff_loop C p only_one cfg remaining cache_only start (current :: rest) elapsed w
  = backoff_loop C p only_one cfg remaining cache_only start rest
      (now w3 + Z.max 0 (current - (d1 + d2)) - start)
      (after_call w3 (EvSleep (Z.max 0 (current - (d1 + d2))))
         (Z.max 0 (current - (d1 + d2)))).
Proof.
  intros Hbudget Hinfo Hres Hstatus Hassemble Hfalsy.
  rewrite backoff_loop_cons, Hbudget, Hinfo. cbv zeta. rewrite Hres, Hstatus. simpl.
  rewrite Hassemble, Hfalsy. simpl.
  replace (now w + d1 + d2 - now w) with (d1 + d2) by lia. reflexivity.
Qed.

(** For a list-shaped resolution none of whose selectors has a live match the
    assembled outcome is [None], so the round goes on as above, whatever the
    truth value of the objects. *)
Lemma stale_list_continues C page p only_one cfg remaining cache_only start current rest
      elapsed w info d1 res d2 l :
  answers_from C page ->
  (remaining <=? elapsed) = false ->
  page_get_page_information C (negb cache_only) w = (Ok info, d1) ->
  client_get_interactions_selector C (request_dto p only_one cfg cache_only info)
    (after_call w (EvPageInformation (negb cache_only) (Ok info)) d1) = (Ok res, d2) ->
  status res = "success" ->
  selectors res = SelList l ->
  Forall (fun s => page s = []) l ->
  exists w3,
    backoff_loop C p only_one cfg remaining cache_only start (current :: rest) elapsed w
    = backoff_loop C p only_one cfg remaining cache_only start rest
        (now w3 + Z.max 0 (current - (d1 + d2)) - start)
        (after_call w3 (EvSleep (Z.max 0 (current - (d1 + d2))))
           (Z.max 0 (current - (d1 + d2)))).
Proof.
  intros Hpage Hbudget Hinfo Hres Hstatus Hsel Hnone.
  assert (Hrev : Forall (fun s' => page s' = []) (rev l)).
  { apply Forall_forall. intros x Hx. rewrite Forall_forall in Hnone.
    apply Hnone. now apply list_elem_of_In, in_rev, list_elem_of_In in Hx. }
  destruct (first_live_skip C page only_one (rev l) []
              (after_call (after_call w (EvPageInformation (negb cache_only) (Ok info)) d1)
                 (EvInteractionsSelector (request_dto p only_one cfg cache_only info) (Ok res))
                 d2) Hpage Hrev) as [w3 [Hrun _]].
  rewrite app_nil_r in Hrun. exists w3.
  apply (stale_miss_continues C p only_one cfg remaining cache_only start current rest
           elapsed w info d1 res d2 NoneValue w3); try assumption; [|reflexivity].
  unfold get_elements_from_selectors. rewrite Hsel. exact Hrun.
Qed.

(** C3 fails on dict-shaped resolutions.  [stale_dict] answers every request
    with a successful resolution [{"name": ["#n1"]}] although nothing on the
    page matches [#n1].  The assembled [AsyncElementsResponse] has no field,
    but as an object it is truthy, so the first round returns it: one request,
    no sleep, no second round; and [_get_element] returns it from the cache
    tier without ever asking for a discovery.  On the list-shaped
    [stale_list] the same situation uses up the 5 seconds of the cache tier. *)
Theorem stale_dict_returns_at_once :
  let cache_run :=
    attempt_with_backoff stale_dict (PromptDict [("name", "the name field")]) false
      (browser_api_config stale_dict) CACHE_TIMEOUT true w0 in
  fst cache_run = Ok (ElementsResponse ∅) /\
  count is_request (trace (snd cache_run)) = 1%nat /\
  count is_sleep (trace (snd cache_run)) = 0%nat /\
  _get_element stale_dict (PromptDict [("name", "the name field")]) false true 15000 w0
  = (Ok (ElementsResponse ∅),
     {| now := now w0;
        trace := [EvPageInformation false (Ok (default_page_information false));
                  EvCheckSelectorCache
                    {| CheckSelectorCacheDTO.url := "https://example.org/";
                       CheckSelectorCacheDTO.prompt :=
                         PromptDict [("name", "the name field")] |} (Ok true)]
                 ++ trace (snd cache_run) |}) /\
  count is_sleep
    (trace (snd (attempt_with_backoff stale_list (PromptStr "the name field") false
                   (browser_api_config stale_list) CACHE_TIMEOUT true w0))) = 5%nat.
Proof. vm_compute. repeat split. Qed.

(** ** Counting the attempts that fit in a budget *)

Lemma count_queries p delta :
  (forall ev, is_query ev = true -> p ev = false) ->
  Forall (fun ev => is_query ev = true) delta ->
  count p delta = 0%nat.
Proof.
  intros Hp Hq. induction Hq as [|ev delta Hev _ IH]; [reflexivity|].
  change (ev :: delta) with ([ev] ++ delta). rewrite count_app, IH.
  unfold count. simpl. rewrite filter_cons. rewrite (Hp ev Hev).
  destruct (decide _) as [H|_]; [discriminate H|reflexivity].
Qed.

Lemma first_match_instant C selectors w :
  instant C -> now (snd (first_match C selectors w)) = now w.
Proof.
  intros Hi. revert w. induction selectors as [|s rest IH]; intros w; simpl; [reflexivity|].
  unfold bind, _get_all_elements_from_selector, call.
  destruct Hi as (_ & Hq & _). specialize (Hq s w).
  destruct (page_get_all_elements_from_selector C s w) as [[[|e els]|exn] took];
    simpl in Hq; subst took; simpl; try lia.
  rewrite IH. simpl. lia.
Qed.

Lemma fill_fields_instant C items result w :
  instant C -> now (snd (fill_fields C items result w)) = now w.
Proof.
  intros Hi. revert result w.
  induction items as [|[key sels] rest IH]; intros result w; simpl; [reflexivity|].
  unfold bind at 1. pose proof (first_match_instant C sels w Hi) as H1.
  destruct (first_match C sels w) as [[found|exn] w1]; simpl in H1; [|exact H1].
  now rewrite IH.
Qed.

Lemma first_live_instant C only_one selectors w :
  instant C -> now (snd (first_live C only_one selectors w)) = now w.
Proof.
  intros Hi. revert w. induction selectors as [|s rest IH]; intros w; simpl; [reflexivity|].
  unfold bind, _get_all_elements_from_selector, call.
  destruct Hi as (_ & Hq & _). specialize (Hq s w).
  destruct (page_get_all_elements_from_selector C s w) as [[[|e els]|exn] took];
    simpl in Hq; subst took; simpl; try lia.
  rewrite IH. simpl. lia.
Qed.

Lemma get_elements_from_selectors_instant C res only_one w :
  instant C -> now (snd (get_elements_from_selectors C res only_one w)) = now w.
Proof.
  intros Hi. unfold get_elements_from_selectors. destruct (selectors res) as [l|items].
  - now apply first_live_instant.
  - unfold bind. pose proof (fill_fields_instant C items ∅ w Hi) as H.
    now destruct (fill_fields C items ∅ w) as [[data|exn] w1].
Qed.

(** With collaborators that answer at once, the loop makes no more requests
    than there are attempts starting within the budget. *)
Lemma backoff_loop_requests_bound C p only_one cfg remaining cache_only start
      intervals elapsed w :
  instant C ->
  now w - start = elapsed ->
  (count is_request
     (trace (snd (backoff_loop C p only_one cfg remaining cache_only start
                    intervals elapsed w)))
   <= count is_request (trace w) + attempts_within remaining elapsed intervals)%nat.
Proof.
  intros Hi. revert elapsed w.
  induction intervals as [|current rest IH]; intros elapsed w Hclock.
  - simpl. lia.
  - rewrite backoff_loop_cons. simpl attempts_within.
    destruct (remaining <=? elapsed); [simpl; lia|].
    pose proof Hi as (Hpi & _ & _ & Hreq). specialize (Hpi (negb cache_only) w).
    destruct (page_get_page_information C (negb cache_only) w) as [[info|e] d1];
      simpl in Hpi; subst d1.
    2:{ simpl. rewrite count_app. simpl. unfold count at 2. simpl. lia. }
    cbv zeta.
    match goal with |- context [client_get_interactions_selector C ?d ?w1] =>
      specialize (Hreq d w1);
      destruct (client_get_interactions_selector C d w1) as [[res|e] d2] end;
      simpl in Hreq; subst d2.
    2:{ simpl. rewrite !count_app. unfold count at 2 3. simpl. lia. }
    destruct (String.eqb (status res) "impossible").
    { simpl. rewrite !count_app. unfold count at 2 3. simpl. lia. }
    match goal with |- context [after_call (after_call w ?e1 0) ?e2 0] =>
      set (w2 := after_call (after_call w e1 0) e2 0) end.
    assert (Hw2 : count is_request (trace w2) = S (count is_request (trace w))
                  /\ now w2 = now w).
    { subst w2. simpl. rewrite !count_app. unfold count at 2 3. simpl. lia. }
    destruct Hw2 as [Hcount2 Hnow2].
    assert (Hw3 : count is_request
                    (trace (snd (if String.eqb (status res) "success"
                                 then get_elements_from_selectors C res only_one w2
                                 else (Ok NoneValue, w2))))
                  = S (count is_request (trace w))
                  /\ now (snd (if String.eqb (status res) "success"
                               then get_elements_from_selectors C res only_one w2
                               else (Ok NoneValue, w2))) = now w).
    { destruct (String.eqb (status res) "success"); [|now split].
      destruct (get_elements_from_selectors_trace C res only_one w2) as (dq & Hdq & Hqq).
      rewrite Hdq, count_app, (count_queries is_request dq), Hcount2.
      - rewrite get_elements_from_selectors_instant by exact Hi. split; [lia|exact Hnow2].
      - intros []; simpl; congruence.
      - exact Hqq. }
    destruct (if String.eqb (status res) "success"
              then get_elements_from_selectors C res only_one w2
              else (Ok NoneValue, w2)) as [[response|e] w3];
      simpl in Hw3; destruct Hw3 as [Hcount3 Hnow3].
    2:{ simpl. lia. }
    destruct (String.eqb (status res) "success" && truthy C response); [simpl; lia|].
    rewrite Hnow2. replace (now w - now w) with 0 by lia. rewrite Z.sub_0_r.
    etransitivity.
    + apply IH. simpl. lia.
    + simpl. rewrite count_app, Hcount3. unfold count at 2. simpl.
      replace (now w3 + Z.max 0 current - start) with (elapsed + Z.max 0 current) by lia.
      lia.
Qed.

(** If moreover every attempt fails, the loop makes exactly that many requests
    and returns [None]. *)
Lemma backoff_loop_requests_exact C p only_one cfg remaining cache_only start
      intervals elapsed w :
  instant C ->
  attempts_fail C ->
  now w - start = elapsed ->
  fst (backoff_loop C p only_one cfg remaining cache_only start intervals elapsed w)
  = Ok NoneValue /\
  count is_request
    (trace (snd (backoff_loop C p only_one cfg remaining cache_only start
                   intervals elapsed w)))
  = (count is_request (trace w) + attempts_within remaining elapsed intervals)%nat.
Proof.
  intros Hi Hfail. revert elapsed w.
  induction intervals as [|current rest IH]; intros elapsed w Hclock.
  - simpl. split; [reflexivity|lia].
  - rewrite backoff_loop_cons. simpl attempts_within.
    destruct (remaining <=? elapsed); [simpl; split; [reflexivity|lia]|].
    pose proof Hi as (Hpi & _ & _ & Hreq). specialize (Hpi (negb cache_only) w).
    pose proof Hfail as (Hpage & Hans). specialize (Hpage (negb cache_only) w).
    destruct Hpage as [info Hinfo].
    destruct (page_get_page_information C (negb cache_only) w) as [reply d1];
      simpl in Hpi, Hinfo; subst d1 reply.
    cbv zeta.
    match goal with |- context [client_get_interactions_selector C ?d ?w1] =>
      specialize (Hreq d w1); destruct (Hans d w1) as (res & Hres & Himp & Hsucc);
      destruct (client_get_interactions_selector C d w1) as [reply d2] end;
      simpl in Hreq, Hres; subst d2 reply.
    rewrite Himp, Hsucc. simpl.
    replace (now w + 0 + 0 - now w) with 0 by lia. rewrite Z.sub_0_r.
    match goal with |- context [backoff_loop _ _ _ _ _ _ _ rest ?el ?w4] =>
      destruct (IH el w4) as [Hres4 Hcount4]; [simpl; lia|];
      replace el with (elapsed + Z.max 0 current) in * by lia end.
    split; [exact Hres4|].
    rewrite Hcount4. simpl. rewrite !count_app. unfold count at 2 3 4. simpl. lia.
Qed.

Lemma attempt_with_backoff_run C p only_one cfg remaining cache_only w :
  attempt_with_backoff C p only_one cfg remaining cache_only w
  = backoff_loop C p only_one cfg remaining cache_only (now w) TIMEOUT_INTERVAL 0 w.
Proof. reflexivity. Qed.

(** C4, as the code has it.  With a budget of 300 ms and collaborators that
    answer at once, the loop makes at most two resolution requests, and
    exactly two, then returning [None], when every attempt fails: the first
    attempt starts at 0 ms, the second at 150 ms, both before the budget is
    used up, and the third would start at 600 ms. *)
Theorem budget_300_two_attempts C p only_one cfg cache_only w :
  instant C ->
  (count is_request (trace (snd (attempt_with_backoff C p only_one cfg 300 cache_only w)))
   <= count is_request (trace w) + 2)%nat /\
  (attempts_fail C ->
   fst (attempt_with_backoff C p only_one cfg 300 cache_only w) = Ok NoneValue /\
   count is_request (trace (snd (attempt_with_backoff C p only_one cfg 300 cache_only w)))
   = (count is_request (trace w) + 2)%nat).
Proof.
  intros Hi. rewrite attempt_with_backoff_run. split.
  - apply (backoff_loop_requests_bound C p only_one cfg 300 cache_only (now w)
             TIMEOUT_INTERVAL 0 w Hi). lia.
  - intros Hfail.
    apply (backoff_loop_requests_exact C p only_one cfg 300 cache_only (now w)
             TIMEOUT_INTERVAL 0 w Hi Hfail). lia.
Qed.

Lemma always_failure_instant : instant always_failure.
Proof. repeat split. Qed.

Lemma always_failure_attempts_fail : attempts_fail always_failure.
Proof.
  split.
  - intros b w. now eexists.
  - intros dto w. exists failure_response. repeat split.
Qed.

(** Witness of C4: the collaborators [always_failure]. *)
Lemma budget_300_two_attempts_witness :
  (count is_request
     (trace (snd (attempt_with_backoff always_failure (PromptStr "the login button") true
                    (browser_api_config always_failure) 300 false w0)))
   <= count is_request (trace w0) + 2)%nat /\
  fst (attempt_with_backoff always_failure (PromptStr "the login button") true
         (browser_api_config always_failure) 300 false w0) = Ok NoneValue /\
  count is_request
    (trace (snd (attempt_with_backoff always_failure (PromptStr "the login button") true
                   (browser_api_config always_failure) 300 false w0)))
  = (count is_request (trace w0) + 2)%nat.
Proof.
  destruct (budget_300_two_attempts always_failure (PromptStr "the login button") true
              (browser_api_config always_failure) false w0 always_failure_instant)
    as [Hle Heq].
  split; [exact Hle|]. exact (Heq always_failure_attempts_fail).
Defined.

(** Counterexample to C4: with a budget of 300 ms and requests that take no
    time, the loop does not stop after one request.  It makes a second one,
    150 ms after the first, sleeps 450 ms more and only then gives up. *)
Lemma budget_300_second_attempt :
  count is_request
    (trace (snd (attempt_with_backoff always_failure (PromptStr "the login button") true
                   (browser_api_config always_failure) 300 false w0))) <> 1%nat /\
  attempt_with_backoff always_failure (PromptStr "the login button") true
    (browser_api_config always_failure) 300 false w0
  = (Ok NoneValue,
     {| now := now w0 + 600;
        trace :=
          [EvPageInformation true (Ok (default_page_information true));
           EvInteractionsSelector
             (request_dto (PromptStr "the login button") true
                (browser_api_config always_failure) false (default_page_information true))
             (Ok failure_response);
           EvSleep 150;
           EvPageInformation true (Ok (default_page_information true));
           EvInteractionsSelector
             (request_dto (PromptStr "the login button") true
                (browser_api_config always_failure) false (default_page_information true))
             (Ok failure_response);
           EvSleep 450] |}).
Proof. split; [vm_compute; discriminate|vm_compute; reflexivity]. Qed.

(** ** The probe and the two tiers *)

Lemma test_if_cache_available_run C p w :
  test_if_cache_available C p w =
  match page_get_page_information C false w with
  | (Raise e, d1) => (Raise e, after_call w (EvPageInformation false (Raise e)) d1)
  | (Ok info, d1) =>
      let w1 := after_call w (EvPageInformation false (Ok info)) d1 in
      match client_check_selector_cache C (probe_dto p info) w1 with
      | (reply, d2) =>
          (reply, after_call w1 (EvCheckSelectorCache (probe_dto p info) reply) d2)
      end
  end.
Proof.
  unfold test_if_cache_available, bind, get_page_information, check_selector_cache, call.
  destruct (page_get_page_information C false w) as [[info|e] d1]; reflexivity.
Qed.

Lemma _get_element_run C p only_one use_cache timeout w :
  _get_element C p only_one use_cache timeout w =
  match test_if_cache_available C p w with
  | (Raise e, w1) => (Raise e, w1)
  | (Ok cache_available, w1) =>
      if cache_available && use_cache
      then
        match attempt_with_backoff C p only_one (browser_api_config C) CACHE_TIMEOUT true w1
        with
        | (Raise e, w2) => (Raise e, w2)
        | (Ok cached, w2) =>
            if truthy C cached then (Ok cached, w2)
            else discovery_tier C p only_one (timeout - (now w2 - now w)) w2
        end
      else discovery_tier C p only_one (timeout - (now w1 - now w)) w1
  end.
Proof.
  unfold _get_element, discovery_tier.
  unfold bind at 1, time_time at 1. unfold bind at 1.
  destruct (test_if_cache_available C p w) as [[cache_available|e] w1]; [|reflexivity].
  unfold bind at 1.
  destruct (cache_available && use_cache); [|reflexivity].
  destruct (attempt_with_backoff C p only_one (browser_api_config C) CACHE_TIMEOUT true w1)
    as [[cached|e] w2]; [|reflexivity].
  simpl. destruct (truthy C cached); reflexivity.
Qed.

(** C1, as the code has it.  With [use_cache = False] the probe still runs
    first: the page information is fetched and the cache service is asked
    whether a selector exists.  Then, whatever it answered, the cache tier is
    left out and the discovery tier runs, with the budget [timeout] less the
    time the probe took. *)
Theorem no_cache_probe_then_discovery C p only_one timeout w info d1 cache_available d2 :
  page_get_page_information C false w = (Ok info, d1) ->
  client_check_selector_cache C (probe_dto p info)
    (after_call w (EvPageInformation false (Ok info)) d1) = (Ok cache_available, d2) ->
  _get_element C p only_one false timeout w
  = discovery_tier C p only_one (timeout - (d1 + d2))
      (after_call (after_call w (EvPageInformation false (Ok info)) d1)
         (EvCheckSelectorCache (probe_dto p info) (Ok cache_available)) d2).
Proof.
  intros Hinfo Hcheck.
  rewrite _get_element_run, test_if_cache_available_run, Hinfo. cbv zeta. rewrite Hcheck.
  rewrite andb_false_r. simpl.
  replace (now w + d1 + d2 - now w) with (d1 + d2) by lia. reflexivity.
Qed.

(** Witness of C1: the cache service answers after 400 ms. *)
Lemma no_cache_probe_then_discovery_witness :
  _get_element slow_probe (PromptStr "the login button") true false 1000 w0
  = discovery_tier slow_probe (PromptStr "the login button") true (1000 - (0 + 400))
      (after_call
         (after_call w0 (EvPageInformation false (Ok (default_page_information false))) 0)
         (EvCheckSelectorCache
            (probe_dto (PromptStr "the login button") (default_page_information false))
            (Ok false)) 400).
Proof.
  apply (no_cache_probe_then_discovery slow_probe (PromptStr "the login button") true 1000 w0
           (default_page_information false) 0 false 400); reflexivity.
Defined.

(** Counterexample to C1: [use_cache = False], a budget of 300 ms and a cache
    service that takes 400 ms to answer.  The cache service is asked, and the
    discovery tier, left with a budget of -100 ms, gives up before its first
    request; started with the nominal 300 ms it makes two. *)
Lemma no_cache_probe_is_sent :
  _get_element slow_probe (PromptStr "the login button") true false 300 w0
  = (Ok NoneValue,
     {| now := now w0 + 400;
        trace :=
          [EvPageInformation false (Ok (default_page_information false));
           EvCheckSelectorCache
             (probe_dto (PromptStr "the login button") (default_page_information false))
             (Ok false)] |}) /\
  count is_cache_check
    (trace (snd (_get_element slow_probe (PromptStr "the login button") true false 300 w0)))
  = 1%nat /\
  count is_request
    (trace (snd (_get_element slow_probe (PromptStr "the login button") true false 300 w0)))
  = 0%nat /\
  count is_request
    (trace (snd (discovery_tier slow_probe (PromptStr "the login button") true 300 w0)))
  = 2%nat.
Proof. vm_compute. repeat split. Qed.

(** C5, as the code has it.  When the call to the cache service raises, the
    exception reaches the caller of [_get_element]: nothing catches it.  The
    cache service has been asked once, and neither tier runs. *)
Theorem probe_failure_propagates C p only_one use_cache timeout w info d1 e d2 :
  page_get_page_information C false w = (Ok info, d1) ->
  client_check_selector_cache C (probe_dto p info)
    (after_call w (EvPageInformation false (Ok info)) d1) = (Raise e, d2) ->
  _get_element C p only_one use_cache timeout w
  = (Raise e,
     {| now := now w + d1 + d2;
        trace := trace w ++ [EvPageInformation false (Ok info);
                             EvCheckSelectorCache (probe_dto p info) (Raise e)] |}).
Proof.
  intros Hinfo Hcheck.
  rewrite _get_element_run, test_if_cache_available_run, Hinfo. cbv zeta. rewrite Hcheck.
  unfold after_call. simpl. now rewrite <- app_assoc.
Qed.

(** Witness of C5: the cache service cannot be reached. *)
Lemma probe_failure_propagates_witness :
  _get_element probe_down (PromptStr "the login button") true true 15000 w0
  = (Raise "ConnectionError",
     {| now := now w0 + 0 + 0;
        trace := trace w0 ++
                 [EvPageInformation false (Ok (default_page_information false));
                  EvCheckSelectorCache
                    (probe_dto (PromptStr "the login button") (default_page_information false))
                    (Raise "ConnectionError")] |}).
Proof.
  apply (probe_failure_propagates probe_down (PromptStr "the login button") true true 15000
           w0 (default_page_information false) 0 "ConnectionError" 0); reflexivity.
Defined.

(** Counterexample to C5: the failure of the cache service is not absorbed.
    [_get_element] does not return; it raises, and the discovery service is
    never asked. *)
Lemma probe_failure_not_absorbed :
  fst (_get_element probe_down (PromptStr "the login button") true true 15000 w0)
  = Raise "ConnectionError" /\
  (forall x, fst (_get_element probe_down (PromptStr "the login button") true true 15000 w0)
             <> Ok x) /\
  count is_request
    (trace (snd (_get_element probe_down (PromptStr "the login button") true true 15000 w0)))
  = 0%nat.
Proof. vm_compute. repeat split. intros x H. discriminate H. Qed.

(** ** The clock never goes back *)

Lemma first_match_clock C selectors w :
  durations_nonneg C -> now w <= now (snd (first_match C selectors w)).
Proof.
  intros Hd. revert w. induction selectors as [|s rest IH]; intros w; simpl; [lia|].
  unfold bind, _get_all_elements_from_selector, call.
  destruct Hd as (_ & Hq & _). specialize (Hq s w).
  destruct (page_get_all_elements_from_selector C s w) as [[[|e els]|exn] took];
    simpl in Hq; simpl; try lia.
  etransitivity; [|apply IH]. simpl. lia.
Qed.

Lemma fill_fields_clock C items result w :
  durations_nonneg C -> now w <= now (snd (fill_fields C items result w)).
Proof.
  intros Hd. revert result w.
  induction items as [|[key sels] rest IH]; intros result w; simpl; [lia|].
  unfold bind at 1. pose proof (first_match_clock C sels w Hd) as H1.
  destruct (first_match C sels w) as [[found|exn] w1]; simpl in H1; [|exact H1].
  etransitivity; [exact H1|apply IH].
Qed.

Lemma first_live_clock C only_one selectors w :
  durations_nonneg C -> now w <= now (snd (first_live C only_one selectors w)).
Proof.
  intros Hd. revert w. induction selectors as [|s rest IH]; intros w; simpl; [lia|].
  unfold bind, _get_all_elements_from_selector, call.
  destruct Hd as (_ & Hq & _). specialize (Hq s w).
  destruct (page_get_all_elements_from_selector C s w) as [[[|e els]|exn] took];
    simpl in Hq; simpl; try lia.
  etransitivity; [|apply IH]. simpl. lia.
Qed.

Lemma get_elements_from_selectors_clock C res only_one w :
  durations_nonneg C -> now w <= now (snd (get_elements_from_selectors C res only_one w)).
Proof.
  intros Hd. unfold get_elements_from_selectors. destruct (selectors res) as [l|items].
  - now apply first_live_clock.
  - unfold bind. pose proof (fill_fields_clock C items ∅ w Hd) as H.
    now destruct (fill_fields C items ∅ w) as [[data|exn] w1].
Qed.

Lemma backoff_loop_clock C p only_one cfg remaining cache_only start intervals elapsed w :
  durations_nonneg C ->
  now w <= now (snd (backoff_loop C p only_one cfg remaining cache_only start
                       intervals elapsed w)).
Proof.
  intros Hd. revert elapsed w.
  induction intervals as [|current rest IH]; intros elapsed w; [simpl; lia|].
  rewrite backoff_loop_cons.
  destruct (remaining <=? elapsed); [simpl; lia|].
  pose proof Hd as (Hpi & _ & _ & Hreq). specialize (Hpi (negb cache_only) w).
  destruct (page_get_page_information C (negb cache_only) w) as [[info|e] d1];
    simpl in Hpi; [|simpl; lia].
  cbv zeta.
  match goal with |- context [client_get_interactions_selector C ?d ?w1] =>
    specialize (Hreq d w1);
    destruct (client_get_interactions_selector C d w1) as [[res|e] d2] end;
    simpl in Hreq; [|simpl; lia].
  destruct (String.eqb (status res) "impossible"); [simpl; lia|].
  match goal with |- context [after_call (after_call w ?e1 d1) ?e2 d2] =>
    set (w2 := after_call (after_call w e1 d1) e2 d2) end.
  assert (Hw2 : now w <= now w2) by (subst w2; simpl; lia).
  assert (Hw3 : now w2 <= now (snd (if String.eqb (status res) "success"
                                    then get_elements_from_selectors C res only_one w2
                                    else (Ok NoneValue, w2)))).
  { destruct (String.eqb (status res) "success"); [|simpl; lia].
    now apply get_elements_from_selectors_clock. }
  destruct (if String.eqb (status res) "success"
            then get_elements_from_selectors C res only_one w2
            else (Ok NoneValue, w2)) as [[response|e] w3]; simpl in Hw3; [|simpl; lia].
  destruct (String.eqb (status res) "success" && truthy C response); [simpl; lia|].
  etransitivity; [|apply IH]. simpl. lia.
Qed.

Lemma test_if_cache_available_clock C p w :
  durations_nonneg C -> now w <= now (snd (test_if_cache_available C p w)).
Proof.
  intros (Hpi & _ & Hcheck & _). rewrite test_if_cache_available_run.
  specialize (Hpi false w).
  destruct (page_get_page_information C false w) as [[info|e] d1]; simpl in Hpi;
    [|simpl; lia].
  cbv zeta.
  match goal with |- context [client_check_selector_cache C ?d ?w1] =>
    specialize (Hcheck d w1); destruct (client_check_selector_cache C d w1) as [reply d2] end.
  simpl in *. lia.
Qed.

(** ** The budgets of the two tiers *)

(** C8. When the probe finds a cached selector and [use_cache] is set, the
    cache tier runs with a budget of 5000 ms, whatever [timeout] is.  If it
    returns a truthy outcome that is the result.  Otherwise the discovery tier
    runs with the budget [timeout] less all the time spent since
    [_get_element] was entered, the probe and the cache tier included: as the
    clock does not go back, less than what was left after the probe, itself
    at most [timeout]. *)
Theorem cache_tier_then_discovery_budget C p only_one timeout w w1 :
  test_if_cache_available C p w = (Ok true, w1) ->
  _get_element C p only_one true timeout w
  = match attempt_with_backoff C p only_one (browser_api_config C) 5000 true w1 with
    | (Raise e, w2) => (Raise e, w2)
    | (Ok cached, w2) =>
        if truthy C cached then (Ok cached, w2)
        else discovery_tier C p only_one (timeout - (now w2 - now w)) w2
    end /\
  (durations_nonneg C ->
   let w2 := snd (attempt_with_backoff C p only_one (browser_api_config C) 5000 true w1) in
   timeout - (now w2 - now w) <= timeout - (now w1 - now w) <= timeout).
Proof.
  intros Hprobe. split.
  - rewrite _get_element_run, Hprobe. reflexivity.
  - intros Hd. cbv zeta.
    pose proof (test_if_cache_available_clock C p w Hd) as H1. rewrite Hprobe in H1.
    simpl in H1.
    pose proof (backoff_loop_clock C p only_one (browser_api_config C) 5000 true (now w1)
                  TIMEOUT_INTERVAL 0 w1 Hd) as H2.
    rewrite <- attempt_with_backoff_run in H2. lia.
Qed.

Lemma stale_list_durations_nonneg : durations_nonneg stale_list.
Proof. repeat split; intros; simpl; lia. Qed.

(** Witness of C8: a stale cached selector.  The cache tier gives up after
    7600 ms and leaves 15000 - 7600 ms to the discovery tier. *)
Lemma cache_tier_then_discovery_budget_witness :
  let w1 := after_call
              (after_call w0 (EvPageInformation false (Ok (default_page_information false))) 0)
              (EvCheckSelectorCache
                 (probe_dto (PromptStr "the name field") (default_page_information false))
                 (Ok true)) 0 in
  let cache_run := attempt_with_backoff stale_list (PromptStr "the name field") false
                     (browser_api_config stale_list) 5000 true w1 in
  fst cache_run = Ok NoneValue /\
  _get_element stale_list (PromptStr "the name field") false true 15000 w0
  = discovery_tier stale_list (PromptStr "the name field") false (15000 - 7600)
      (snd cache_run) /\
  15000 - (now (snd cache_run) - now w0) <= 15000 - (now w1 - now w0) <= 15000.
Proof.
  cbv zeta.
  destruct (cache_tier_then_discovery_budget stale_list (PromptStr "the name field") false
              15000 w0
              (after_call
                 (after_call w0
                    (EvPageInformation false (Ok (default_page_information false))) 0)
                 (EvCheckSelectorCache
                    (probe_dto (PromptStr "the name field") (default_page_information false))
                    (Ok true)) 0) eq_refl) as [Hrun Hbudget].
  split; [vm_compute; reflexivity|]. split.
  - rewrite Hrun. vm_compute. reflexivity.
  - exact (Hbudget stale_list_durations_nonneg).
Defined.

(** ** A plain miss is [None], not an exception *)

(** What the loop returns is [None] or truthy. *)
Lemma backoff_loop_result C p only_one cfg remaining cache_only start intervals elapsed w r :
  fst (backoff_loop C p only_one cfg remaining cache_only start intervals elapsed w) = Ok r ->
  r = NoneValue \/ truthy C r = true.
Proof.
  revert elapsed w. induction intervals as [|current rest IH]; intros elapsed w.
  - simpl. intros [= <-]. now left.
  - rewrite backoff_loop_cons.
    destruct (remaining <=? elapsed); [simpl; intros [= <-]; now left|].
    destruct (page_get_page_information C (negb cache_only) w) as [[info|e] d1];
      [|discriminate].
    cbv zeta.
    destruct (client_get_interactions_selector C _ _) as [[res|e] d2]; [|discriminate].
    destruct (String.eqb (status res) "impossible"); [simpl; intros [= <-]; now left|].
    destruct (if String.eqb (status res) "success" then _ else _) as [[response|e] w3];
      [|discriminate].
    destruct (String.eqb (status res) "success"); simpl; [|apply IH].
    destruct (truthy C response) eqn:Ht; [|apply IH].
    simpl. intros [= <-]. now right.
Qed.

(** * Further properties *)

(** ** Exceptions of the page driver while assembling *)

Lemma first_match_log C selectors w :
  exists delta,
    trace (snd (first_match C selectors w)) = trace w ++ delta /\
    Forall (fun ev => is_query ev = true) delta /\
    (forall e, fst (first_match C selectors w) = Raise e ->
               exists pre s, delta = pre ++ [EvAllElements s (Raise e)]).
Proof.
  revert w. induction selectors as [|s rest IH]; intros w; simpl.
  - exists []. split; [now rewrite app_nil_r|]. split; [constructor|discriminate].
  - unfold bind, _get_all_elements_from_selector, call.
    destruct (page_get_all_elements_from_selector C s w) as [[[|el els]|exn] took].
    + destruct (IH (after_call w (EvAllElements s (Ok [])) took))
        as (delta & Htr & Hq & Hraise).
      exists (EvAllElements s (Ok []) :: delta). split; [|split].
      * unfold after_call in Htr. rewrite Htr. simpl. now rewrite <- app_assoc.
      * now constructor.
      * intros e He. destruct (Hraise e He) as (pre & s' & ->).
        now exists (EvAllElements s (Ok []) :: pre), s'.
    + exists [EvAllElements s (Ok (el :: els))].
      split; [reflexivity|]. split; [now repeat constructor|discriminate].
    + exists [EvAllElements s (Raise exn)]. split; [reflexivity|].
      split; [now repeat constructor|]. simpl. intros e [= <-]. now exists [], s.
Qed.

Lemma fill_fields_log C items result w :
  exists delta,
    trace (snd (fill_fields C items result w)) = trace w ++ delta /\
    Forall (fun ev => is_query ev = true) delta /\
    (forall e, fst (fill_fields C items result w) = Raise e ->
               exists pre s, delta = pre ++ [EvAllElements s (Raise e)]).
Proof.
  revert result w. induction items as [|[key sels] rest IH]; intros result w; simpl.
  - exists []. split; [now rewrite app_nil_r|]. split; [constructor|discriminate].
  - unfold bind at 1 2.
    destruct (first_match_log C sels w) as (d1 & Htr1 & Hq1 & Hraise1).
    destruct (first_match C sels w) as [[found|exn] w1]; simpl in Htr1, Hraise1.
    + destruct (IH (match found with Some e => <[key:=e]> result | None => result end) w1)
        as (d2 & Htr2 & Hq2 & Hraise2).
      exists (d1 ++ d2). split; [|split].
      * rewrite Htr2, Htr1. now rewrite <- app_assoc.
      * now apply Forall_app.
      * intros e He. destruct (Hraise2 e He) as (pre & s' & ->).
        exists (d1 ++ pre), s'. now rewrite <- app_assoc.
    + exists d1. split; [exact Htr1|]. split; [exact Hq1|].
      simpl. intros e [= <-]. now apply Hraise1.
Qed.

Lemma first_live_log C only_one selectors w :
  exists delta,
    trace (snd (first_live C only_one selectors w)) = trace w ++ delta /\
    Forall (fun ev => is_query ev = true) delta /\
    (forall e, fst (first_live C only_one selectors w) = Raise e ->
               exists pre s, delta = pre ++ [EvAllElements s (Raise e)]).
Proof.
  revert w. induction selectors as [|s rest IH]; intros w; simpl.
  - exists []. split; [now rewrite app_nil_r|]. split; [constructor|discriminate].
  - unfold bind, _get_all_elements_from_selector, call.
    destruct (page_get_all_elements_from_selector C s w) as [[[|el els]|exn] took].
    + destruct (IH (after_call w (EvAllElements s (Ok [])) took))
        as (delta & Htr & Hq & Hraise).
      exists (EvAllElements s (Ok []) :: delta). split; [|split].
      * unfold after_call in Htr. rewrite Htr. simpl. now rewrite <- app_assoc.
      * now constructor.
      * intros e He. destruct (Hraise e He) as (pre & s' & ->).
        now exists (EvAllElements s (Ok []) :: pre), s'.
    + exists [EvAllElements s (Ok (el :: els))].
      split; [reflexivity|]. split; [now repeat constructor|].
      destruct only_one; discriminate.
    + exists [EvAllElements s (Raise exn)]. split; [reflexivity|].
      split; [now repeat constructor|]. simpl. intros e [= <-]. now exists [], s.
Qed.

Lemma get_elements_from_selectors_log C res only_one w :
  exists delta,
    trace (snd (get_elements_from_selectors C res only_one w)) = trace w ++ delta /\
    Forall (fun ev => is_query ev = true) delta /\
    (forall e, fst (get_elements_from_selectors C res only_one w) = Raise e ->
               exists pre s, delta = pre ++ [EvAllElements s (Raise e)]).
Proof.
  unfold get_elements_from_selectors. destruct (selectors res) as [l|items].
  - apply first_live_log.
  - unfold bind. destruct (fill_fields_log C items ∅ w) as (delta & Htr & Hq & Hraise).
    destruct (fill_fields C items ∅ w) as [[data|exn] w1]; simpl in *.
    + exists delta. split; [exact Htr|]. split; [exact Hq|discriminate].
    + exists delta. split; [exact Htr|]. split; [exact Hq|].
      intros e [= <-]. now apply Hraise.
Qed.

(** ** The rounds of the backoff loop *)

Lemma backoff_loop_log C p only_one cfg remaining cache_only start intervals elapsed w :
  exists delta,
    trace (snd (backoff_loop C p only_one cfg remaining cache_only start intervals elapsed w))
    = trace w ++ delta /\
    loop_log C p only_one cfg cache_only intervals delta
      (fst (backoff_loop C p only_one cfg remaining cache_only start intervals elapsed w)).
Proof.
  revert elapsed w. induction intervals as [|current rest IH]; intros elapsed w.
  - exists []. simpl. split; [now rewrite app_nil_r|constructor].
  - rewrite backoff_loop_cons.
    destruct (remaining <=? elapsed).
    { exists []. simpl. split; [now rewrite app_nil_r|constructor]. }
    destruct (page_get_page_information C (negb cache_only) w) as [[info|e] d1].
    2:{ eexists [_]. split; [reflexivity|constructor]. }
    cbv zeta.
    destruct (client_get_interactions_selector C _ _) as [[res|e] d2].
    2:{ eexists [_; _]. simpl. rewrite <- app_assoc. split; [reflexivity|constructor]. }
    destruct (String.eqb (status res) "impossible") eqn:Himp.
    { eexists [_; _]. simpl. rewrite <- app_assoc. split; [reflexivity|].
      constructor. now apply String.eqb_eq. }
    apply String.eqb_neq in Himp.
    set (w1 := after_call w _ d1).
    set (w2 := after_call w1 _ d2).
    assert (Hw2 : trace w2
                  = trace w ++ [EvPageInformation (negb cache_only) (Ok info);
                                EvInteractionsSelector
                                  (request_dto p only_one cfg cache_only info) (Ok res)]).
    { subst w2 w1. simpl. now rewrite <- app_assoc. }
    set (d := Z.max 0 (current - (now w2 - now w))).
    assert (Hd : 0 <= d) by (subst d; lia).
    destruct (String.eqb (status res) "success") eqn:Hsucc.
    + apply String.eqb_eq in Hsucc.
      destruct (get_elements_from_selectors_log C res only_one w2)
        as (dq & Htr & Hq & Hraise).
      destruct (get_elements_from_selectors C res only_one w2) as [[response|e] w3];
        cbn [fst snd] in Htr, Hraise.
      * cbn [andb]. destruct (truthy C response) eqn:Ht.
        -- eexists (_ :: _ :: dq). cbn [fst snd]. split.
           ++ rewrite Htr, Hw2. now rewrite <- app_assoc.
           ++ now constructor.
        -- destruct (IH (now w3 + d - start) (after_call w3 (EvSleep d) d))
             as (delta & Htr' & Hlog).
           eexists (_ :: _ :: dq ++ EvSleep d :: delta). split.
           ++ rewrite Htr'. cbn [trace after_call]. rewrite Htr, Hw2. rewrite <- !app_assoc. reflexivity.
           ++ now constructor.
      * destruct (Hraise e eq_refl) as (pre & s & ->).
        eexists (_ :: _ :: pre ++ [EvAllElements s (Raise e)]). cbn [fst snd]. split.
        -- rewrite Htr, Hw2. now rewrite <- app_assoc.
        -- apply Forall_app in Hq as [Hq _]. now constructor.
    + cbn [andb].
      destruct (IH (now w2 + d - start) (after_call w2 (EvSleep d) d))
        as (delta & Htr' & Hlog).
      eexists (_ :: _ :: [] ++ EvSleep d :: delta). split.
      * rewrite Htr'. cbn [trace after_call]. rewrite Hw2. rewrite <- !app_assoc. reflexivity.
      * constructor; try assumption; [congruence|constructor].
Qed.

Lemma added_app w w' delta : trace w' = trace w ++ delta -> added w w' = delta.
Proof. intros H. unfold added. rewrite H. apply drop_app_length. Qed.

(** X1. What a run of [attempt_with_backoff] adds to the log is a sequence of
    rounds over the six intervals, as [loop_log] describes them, ending with
    the result of the run; the log is only ever extended. *)
Theorem attempt_with_backoff_rounds C p only_one cfg remaining cache_only w :
  let run := attempt_with_backoff C p only_one cfg remaining cache_only w in
  trace (snd run) = trace w ++ added w (snd run) /\
  loop_log C p only_one cfg cache_only TIMEOUT_INTERVAL (added w (snd run)) (fst run).
Proof.
  cbv zeta. rewrite attempt_with_backoff_run.
  destruct (backoff_loop_log C p only_one cfg remaining cache_only (now w)
              TIMEOUT_INTERVAL 0 w) as (delta & Htr & Hlog).
  rewrite (added_app _ _ _ Htr). now split.
Qed.

(** ** Reading properties off the rounds *)

Lemma loop_log_forall C p only_one cfg cache_only (Q : Event -> Prop) intervals delta r :
  (forall reply, Q (EvPageInformation (negb cache_only) reply)) ->
  (forall info reply,
      Q (EvInteractionsSelector (request_dto p only_one cfg cache_only info) reply)) ->
  (forall ev, is_query ev = true -> Q ev) ->
  (forall d, 0 <= d -> Q (EvSleep d)) ->
  loop_log C p only_one cfg cache_only intervals delta r ->
  Forall Q delta.
Proof.
  intros Hpi Hreq Hquery Hsleep Hlog.
  assert (Hq : forall l, Forall (fun ev => is_query ev = true) l -> Forall Q l).
  { intros l Hl. eapply Forall_impl; [exact Hl|exact Hquery]. }
  induction Hlog; repeat first [apply Forall_nil | apply Forall_cons; split
                                | apply Forall_app; split]; auto.
Qed.

(** X2. Every call a run of [attempt_with_backoff] makes belongs to its tier:
    the page information is fetched with a screenshot exactly when the run is
    not cache-only, every request carries the caller's prompt, configuration
    and [only_one] and has both cache flags equal to [only_use_cache], and the
    cache service is never asked. *)
Theorem attempt_with_backoff_tier_events C p only_one cfg remaining cache_only w :
  Forall (tier_event p only_one cfg cache_only)
         (added w (snd (attempt_with_backoff C p only_one cfg remaining cache_only w))).
Proof.
  rewrite attempt_with_backoff_run.
  destruct (backoff_loop_log C p only_one cfg remaining cache_only (now w)
              TIMEOUT_INTERVAL 0 w) as (delta & Htr & Hlog).
  rewrite (added_app _ _ _ Htr).
  apply (loop_log_forall C p only_one cfg cache_only _ _ _ _) with (5 := Hlog).
  - reflexivity.
  - intros info reply. simpl. tauto.
  - intros [] H; try discriminate H. exact I.
  - intros d _. exact I.
Qed.

(** X3. No sleep of a run of [attempt_with_backoff] is negative, however long
    the requests take. *)
Theorem sleeps_never_negative C p only_one cfg remaining cache_only w :
  Forall (fun ev => match ev with EvSleep d => 0 <= d | _ => True end)
         (added w (snd (attempt_with_backoff C p only_one cfg remaining cache_only w))).
Proof.
  rewrite attempt_with_backoff_run.
  destruct (backoff_loop_log C p only_one cfg remaining cache_only (now w)
              TIMEOUT_INTERVAL 0 w) as (delta & Htr & Hlog).
  rewrite (added_app _ _ _ Htr).
  apply (loop_log_forall C p only_one cfg cache_only _ _ _ _) with (5 := Hlog).
  - intros; exact I.
  - intros; exact I.
  - intros [] H; try discriminate H. exact I.
  - intros d Hd. exact Hd.
Qed.

Lemma count_cons p ev tr :
  count p (ev :: tr) = ((if p ev then 1 else 0) + count p tr)%nat.
Proof.
  change (ev :: tr) with ([ev] ++ tr). rewrite count_app. f_equal.
  unfold count. simpl. rewrite filter_cons. destruct (p ev); simpl.
  - destruct (decide (true = true)); [reflexivity|congruence].
  - destruct (decide (false = true)); [discriminate|reflexivity].
Qed.

Lemma loop_log_counts C p only_one cfg cache_only intervals delta r :
  loop_log C p only_one cfg cache_only intervals delta r ->
  (count is_page_information delta <= length intervals)%nat /\
  (count is_request delta <= count is_page_information delta)%nat /\
  (count is_sleep delta <= count is_request delta)%nat.
Proof.
  assert (Hq : forall (f : Event -> bool) l,
             (forall ev, is_query ev = true -> f ev = false) ->
             Forall (fun ev => is_query ev = true) l -> count f l = 0%nat).
  { intros f l Hf Hl. now apply count_queries. }
  assert (Hpi : forall ev, is_query ev = true -> is_page_information ev = false)
    by (intros []; simpl; congruence).
  assert (Hrq : forall ev, is_query ev = true -> is_request ev = false)
    by (intros []; simpl; congruence).
  assert (Hsl : forall ev, is_query ev = true -> is_sleep ev = false)
    by (intros []; simpl; congruence).
  induction 1 as [ | | | | ? ? ? ? queries ? ? Hqs ?
                   | ? ? ? ? queries ? ? ? Hqs
                   | ? ? ? ? queries ? ? ? ? ? Hqs ? ? IH ];
    repeat rewrite ?count_cons, ?count_app; simpl;
    rewrite ?(Hq is_page_information queries Hpi Hqs),
            ?(Hq is_request queries Hrq Hqs), ?(Hq is_sleep queries Hsl Hqs);
    try (unfold count; simpl; lia).
  repeat rewrite ?count_cons. simpl. lia.
Qed.

(** X4. A run of [attempt_with_backoff] fetches the page information at most
    six times, sends at most one request per fetch and sleeps at most once
    per request, whatever the collaborators answer and however long they
    take. *)
Theorem attempt_with_backoff_at_most_six C p only_one cfg remaining cache_only w :
  let delta := added w (snd (attempt_with_backoff C p only_one cfg remaining cache_only w)) in
  (count is_page_information delta <= 6)%nat /\
  (count is_request delta <= count is_page_information delta)%nat /\
  (count is_sleep delta <= count is_request delta)%nat.
Proof.
  cbv zeta. rewrite attempt_with_backoff_run.
  destruct (backoff_loop_log C p only_one cfg remaining cache_only (now w)
              TIMEOUT_INTERVAL 0 w) as (delta & Htr & Hlog).
  rewrite (added_app _ _ _ Htr).
  exact (loop_log_counts C p only_one cfg cache_only TIMEOUT_INTERVAL delta _ Hlog).
Qed.

(** ** A fresh snapshot for every request *)

Lemma split_after_quiet (quiet tail pre : list Event) x post :
  Forall (fun ev => is_request ev = false) quiet ->
  is_request x = true ->
  quiet ++ tail = pre ++ x :: post ->
  exists pre', pre = quiet ++ pre' /\ tail = pre' ++ x :: post.
Proof.
  intros Hquiet Hx. revert pre.
  induction Hquiet as [|ev quiet Hev _ IH]; intros pre Heq; simpl in *.
  - now exists pre.
  - destruct pre as [|ev' pre]; simpl in Heq.
    + injection Heq as -> _. congruence.
    + injection Heq as -> Heq. destruct (IH pre Heq) as (pre' & -> & ->).
      now exists pre'.
Qed.

Lemma round_request inc info dto0 reply0 quiet tail pre dto reply post :
  Forall (fun ev => is_request ev = false) quiet ->
  EvPageInformation inc (Ok info) :: EvInteractionsSelector dto0 reply0 :: quiet ++ tail
  = pre ++ EvInteractionsSelector dto reply :: post ->
  (pre = [EvPageInformation inc (Ok info)] /\ dto = dto0) \/
  (exists pre',
      pre = EvPageInformation inc (Ok info) :: EvInteractionsSelector dto0 reply0
            :: quiet ++ pre' /\
      tail = pre' ++ EvInteractionsSelector dto reply :: post).
Proof.
  intros Hquiet Heq.
  destruct pre as [|ev1 pre]; simpl in Heq; [discriminate Heq|].
  injection Heq as <- Heq.
  destruct pre as [|ev2 pre]; simpl in Heq.
  - simplify_eq/=. now left.
  - injection Heq as <- Heq. right.
    destruct (split_after_quiet quiet tail pre (EvInteractionsSelector dto reply) post
                Hquiet eq_refl Heq)
      as (pre' & -> & ->).
    now exists pre'.
Qed.

Lemma queries_quiet queries :
  Forall (fun ev => is_query ev = true) queries ->
  Forall (fun ev => is_request ev = false) queries.
Proof.
  intros H. eapply Forall_impl; [exact H|].
  intros [] Hq; try discriminate Hq; reflexivity.
Qed.

Lemma loop_log_fresh_snapshot C p only_one cfg cache_only intervals delta r :
  loop_log C p only_one cfg cache_only intervals delta r ->
  forall pre dto reply post,
    delta = pre ++ EvInteractionsSelector dto reply :: post ->
    exists pre' info,
      pre = pre' ++ [EvPageInformation (negb cache_only) (Ok info)] /\
      dto = request_dto p only_one cfg cache_only info.
Proof.
  induction 1 as [ | | | | ? ? info ? queries ? ? Hqs ?
                   | ? ? info ? queries ? ? ? Hqs
                   | ? ? info ? queries d ? ? ? ? Hqs ? ? IH ];
    intros pre dto reply post Heq.
  - now destruct pre.
  - destruct pre as [|? [|? ?]]; discriminate Heq.
  - destruct pre as [|? [|? pre]]; try discriminate Heq.
    + simplify_eq/=. now exists [], info.
    + destruct pre; discriminate Heq.
  - destruct pre as [|? [|? pre]]; try discriminate Heq.
    + simplify_eq/=. now exists [], info.
    + destruct pre; discriminate Heq.
  - rewrite <- (app_nil_r queries) in Heq.
    destruct (round_request _ _ _ _ _ _ _ _ _ _ (queries_quiet _ Hqs) Heq)
      as [[-> ->]|(pre' & _ & Habs)].
    + now exists [], info.
    + now destruct pre'.
  - assert (Hquiet : Forall (fun ev => is_request ev = false)
                            (queries ++ [EvAllElements selector (Raise e)])).
    { apply Forall_app. split; [now apply queries_quiet|now repeat constructor]. }
    rewrite <- (app_nil_r (queries ++ _)) in Heq.
    destruct (round_request _ _ _ _ _ _ _ _ _ _ Hquiet Heq)
      as [[-> ->]|(pre' & _ & Habs)].
    + now exists [], info.
    + now destruct pre'.
  - assert (Hquiet : Forall (fun ev => is_request ev = false) (queries ++ [EvSleep d])).
    { apply Forall_app. split; [now apply queries_quiet|now repeat constructor]. }
    change (queries ++ EvSleep d :: delta) with (queries ++ [EvSleep d] ++ delta) in Heq.
    rewrite app_assoc in Heq.
    destruct (round_request _ _ _ _ _ _ _ _ _ _ Hquiet Heq)
      as [[-> ->]|(pre' & -> & Htail)].
    + now exists [], info.
    + destruct (IH _ _ _ _ Htail) as (pre'' & info' & -> & ->).
      eexists (_ :: _ :: (queries ++ [EvSleep d]) ++ pre''), info'.
      split; [|reflexivity]. simpl. rewrite <- !app_assoc. reflexivity.
Qed.

(** X5. Every request of a run of [attempt_with_backoff] comes right after a
    fetch of the page information, made in this run with a screenshot exactly
    when the run is not cache-only, and carries the page information that
    fetch returned: no snapshot is used twice and none is older than its
    attempt. *)
Theorem fresh_snapshot_per_request C p only_one cfg remaining cache_only w
        pre dto reply post :
  added w (snd (attempt_with_backoff C p only_one cfg remaining cache_only w))
  = pre ++ EvInteractionsSelector dto reply :: post ->
  exists pre' info,
    pre = pre' ++ [EvPageInformation (negb cache_only) (Ok info)] /\
    dto = request_dto p only_one cfg cache_only info.
Proof.
  rewrite attempt_with_backoff_run.
  destruct (backoff_loop_log C p only_one cfg remaining cache_only (now w)
              TIMEOUT_INTERVAL 0 w) as (delta & Htr & Hlog).
  rewrite (added_app _ _ _ Htr).
  apply (loop_log_fresh_snapshot C p only_one cfg cache_only _ _ _ Hlog).
Qed.

(** Witness of X5: the second request of a run in which every attempt fails. *)
Lemma fresh_snapshot_per_request_witness :
  exists pre' info,
    [EvPageInformation true (Ok (default_page_information true));
     EvInteractionsSelector
       (request_dto (PromptStr "the login button") true
          (browser_api_config always_failure) false (default_page_information true))
       (Ok failure_response);
     EvSleep 150;
     EvPageInformation true (Ok (default_page_information true))]
    = pre' ++ [EvPageInformation (negb false) (Ok info)] /\
    request_dto (PromptStr "the login button") true
      (browser_api_config always_failure) false (default_page_information true)
    = request_dto (PromptStr "the login button") true
        (browser_api_config always_failure) false info.
Proof.
  apply (fresh_snapshot_per_request always_failure (PromptStr "the login button") true
           (browser_api_config always_failure) 300 false w0 _ _ (Ok failure_response)
           [EvSleep 450]).
  vm_compute. reflexivity.
Defined.

(** ** Where exceptions come from *)

Lemma loop_log_raise C p only_one cfg cache_only intervals delta r :
  loop_log C p only_one cfg cache_only intervals delta r ->
  forall e, r = Raise e -> exists pre ev, delta = pre ++ [ev] /\ raised ev e.
Proof.
  induction 1 as [ | | | | | ? ? info res queries selector exn
                   | ? ? info res queries d delta r ? ? ? ? ? IH ];
    intros e' He; try discriminate He.
  - injection He as <-. now eexists [], _.
  - injection He as <-. now eexists [_], _.
  - injection He as <-. eexists (_ :: _ :: queries), _. split; [reflexivity|].
    reflexivity.
  - destruct (IH e' He) as (pre & ev & -> & Hev).
    eexists (_ :: _ :: queries ++ EvSleep d :: pre), ev. split; [|exact Hev].
    simpl. rewrite <- !app_assoc. reflexivity.
Qed.

Lemma attempt_with_backoff_log C p only_one cfg remaining cache_only w :
  exists delta,
    trace (snd (attempt_with_backoff C p only_one cfg remaining cache_only w))
    = trace w ++ delta /\
    Forall (tier_event p only_one cfg cache_only) delta /\
    (forall e,
        fst (attempt_with_backoff C p only_one cfg remaining cache_only w) = Raise e ->
        exists pre ev, delta = pre ++ [ev] /\ raised ev e).
Proof.
  rewrite attempt_with_backoff_run.
  destruct (backoff_loop_log C p only_one cfg remaining cache_only (now w)
              TIMEOUT_INTERVAL 0 w) as (delta & Htr & Hlog).
  exists delta. split; [exact Htr|]. split.
  - apply (loop_log_forall C p only_one cfg cache_only _ _ _ _) with (5 := Hlog).
    + reflexivity.
    + intros info reply. simpl. tauto.
    + intros [] H; try discriminate H. exact I.
    + intros d _. exact I.
  - intros e He. exact (loop_log_raise _ _ _ _ _ _ _ _ Hlog e He).
Qed.

Lemma discovery_tier_log C p only_one budget w :
  exists delta,
    trace (snd (discovery_tier C p only_one budget w)) = trace w ++ delta /\
    Forall (tier_event p only_one (browser_api_config C) false) delta /\
    (forall e,
        fst (discovery_tier C p only_one budget w) = Raise e ->
        exists pre ev, delta = pre ++ [ev] /\ raised ev e).
Proof.
  unfold discovery_tier, bind.
  destruct (attempt_with_backoff_log C p only_one (browser_api_config C) budget false w)
    as (delta & Htr & Hev & Hraise).
  destruct (attempt_with_backoff C p only_one (browser_api_config C) budget false w)
    as [[res|e] w']; cbn [fst snd] in *.
  - exists delta. destruct (truthy C res); cbn [fst snd ret];
      (split; [exact Htr|]; split; [exact Hev|discriminate]).
  - exists delta. split; [exact Htr|]. split; [exact Hev|].
    intros e' [= <-]. now apply Hraise.
Qed.

(** ** The conversation of [_get_element] *)

Lemma _get_element_log C p only_one use_cache timeout w :
  exists probe cached discovered,
    trace (snd (_get_element C p only_one use_cache timeout w))
    = trace w ++ probe ++ cached ++ discovered /\
    ((exists e,
         probe = [EvPageInformation false (Raise e)] /\ cached = [] /\ discovered = []) \/
     (exists info reply,
         probe = [EvPageInformation false (Ok info);
                  EvCheckSelectorCache (probe_dto p info) reply] /\
         (cached <> [] -> use_cache = true /\ reply = Ok true) /\
         (discovered <> [] -> exists b, reply = Ok b))) /\
    Forall (tier_event p only_one (browser_api_config C) true) cached /\
    Forall (tier_event p only_one (browser_api_config C) false) discovered /\
    (forall e,
        fst (_get_element C p only_one use_cache timeout w) = Raise e ->
        exists pre ev, probe ++ cached ++ discovered = pre ++ [ev] /\ raised ev e).
Proof.
  rewrite _get_element_run, test_if_cache_available_run.
  destruct (page_get_page_information C false w) as [[info|e] d1].
  2:{ eexists [_], [], []. cbn [fst snd]. split; [reflexivity|].
      split; [left; now exists e|]. split; [constructor|]. split; [constructor|].
      intros e' [= <-]. now eexists [], _. }
  cbv zeta.
  destruct (client_check_selector_cache C (probe_dto p info) _) as [[b|e] d2].
  2:{ eexists [_; _], [], []. cbn [fst snd]. split.
      { simpl. now rewrite <- app_assoc. }
      split.
      { right. exists info, (Raise e). split; [reflexivity|]. split; congruence. }
      split; [constructor|]. split; [constructor|].
      intros e' [= <-]. now eexists [_], _. }
  set (w1 := after_call (after_call w _ d1) _ d2).
  assert (Hw1 : trace w1 = trace w ++ [EvPageInformation false (Ok info);
                                       EvCheckSelectorCache (probe_dto p info) (Ok b)]).
  { subst w1. simpl. now rewrite <- app_assoc. }
  destruct (b && use_cache) eqn:Hgate.
  - apply andb_true_iff in Hgate as [-> ->].
    destruct (attempt_with_backoff_log C p only_one (browser_api_config C)
                CACHE_TIMEOUT true w1) as (dc & Htrc & Hevc & Hraisec).
    destruct (attempt_with_backoff C p only_one (browser_api_config C) CACHE_TIMEOUT
                true w1) as [[cached|e] w2]; cbn [fst snd] in Htrc, Hraisec.
    + destruct (truthy C cached).
      * eexists [_; _], dc, []. cbn [fst snd]. split.
        { rewrite Htrc, Hw1, app_nil_r, <- app_assoc. reflexivity. }
        split.
        { right. exists info, (Ok true). split; [reflexivity|].
          split; [tauto|]. intros _. now exists true. }
        split; [exact Hevc|]. split; [constructor|discriminate].
      * destruct (discovery_tier_log C p only_one (timeout - (now w2 - now w)) w2)
          as (dd & Htrd & Hevd & Hraised).
        eexists [_; _], dc, dd. split.
        { rewrite Htrd, Htrc, Hw1, <- !app_assoc. reflexivity. }
        split.
        { right. exists info, (Ok true). split; [reflexivity|].
          split; [tauto|]. intros _. now exists true. }
        split; [exact Hevc|]. split; [exact Hevd|].
        intros e He. destruct (Hraised e He) as (pre & ev & -> & Hev).
        eexists (_ :: _ :: dc ++ pre), ev. split; [|exact Hev].
        simpl. rewrite <- !app_assoc. reflexivity.
    + eexists [_; _], dc, []. cbn [fst snd]. split.
      { rewrite Htrc, Hw1, app_nil_r, <- app_assoc. reflexivity. }
      split.
      { right. exists info, (Ok true). split; [reflexivity|].
        split; [tauto|]. intros _. now exists true. }
      split; [exact Hevc|]. split; [constructor|].
      intros e' [= <-]. destruct (Hraisec e eq_refl) as (pre & ev & -> & Hev).
      eexists (_ :: _ :: pre), ev. split; [|exact Hev].
      simpl. rewrite app_nil_r. reflexivity.
  - destruct (discovery_tier_log C p only_one (timeout - (now w1 - now w)) w1)
      as (dd & Htrd & Hevd & Hraised).
    eexists [_; _], [], dd. split.
    { rewrite Htrd, Hw1, <- !app_assoc. reflexivity. }
    split.
    { right. exists info, (Ok b). split; [reflexivity|].
      split; [congruence|]. intros _. now exists b. }
    split; [constructor|]. split; [exact Hevd|].
    intros e He. destruct (Hraised e He) as (pre & ev & -> & Hev).
    eexists (_ :: _ :: pre), ev. split; [|exact Hev]. reflexivity.
Qed.

(** X6. [_get_element] raises only what a collaborator raised: when it ends
    with an exception, the last event of its log is a call to the page driver
    or to the API client that raised this very exception, and nothing was done
    after it. *)
Theorem exceptions_come_from_collaborators C p only_one use_cache timeout w e :
  fst (_get_element C p only_one use_cache timeout w) = Raise e ->
  exists pre ev,
    added w (snd (_get_element C p only_one use_cache timeout w)) = pre ++ [ev] /\
    raised ev e.
Proof.
  intros He.
  destruct (_get_element_log C p only_one use_cache timeout w)
    as (probe & cached & discovered & Htr & _ & _ & _ & Hraise).
  rewrite (added_app _ _ _ Htr). now apply Hraise.
Qed.

(** Witness of X6: the cache service cannot be reached. *)
Lemma exceptions_come_from_collaborators_witness :
  exists pre ev,
    added w0 (snd (_get_element probe_down (PromptStr "the login button") true true 15000 w0))
    = pre ++ [ev] /\
    raised ev "ConnectionError".
Proof.
  apply (exceptions_come_from_collaborators probe_down (PromptStr "the login button")
           true true 15000 w0 "ConnectionError").
  reflexivity.
Defined.

(** X7. The log of a call of [_get_element] has three parts, in this order.
    The probe: one fetch of the page information without screenshot and, if
    it returned, one question to the cache service.  The cache tier: calls
    with both cache flags set and without screenshots, there only if
    [use_cache] is set and the cache service answered that a selector exists.
    The discovery tier: calls with both cache flags cleared and with
    screenshots, there only if the cache service answered. *)
Theorem get_element_conversation C p only_one use_cache timeout w :
  exists probe cached discovered,
    added w (snd (_get_element C p only_one use_cache timeout w))
    = probe ++ cached ++ discovered /\
    ((exists e,
         probe = [EvPageInformation false (Raise e)] /\ cached = [] /\ discovered = []) \/
     (exists info reply,
         probe = [EvPageInformation false (Ok info);
                  EvCheckSelectorCache (probe_dto p info) reply] /\
         (cached <> [] -> use_cache = true /\ reply = Ok true) /\
         (discovered <> [] -> exists b, reply = Ok b))) /\
    Forall (tier_event p only_one (browser_api_config C) true) cached /\
    Forall (tier_event p only_one (browser_api_config C) false) discovered.
Proof.
  destruct (_get_element_log C p only_one use_cache timeout w)
    as (probe & cached & discovered & Htr & Hprobe & Hc & Hd & _).
  exists probe, cached, discovered. rewrite (added_app _ _ _ Htr). auto.
Qed.

(** X8. With [use_cache = False] no request of a call of [_get_element] asks
    the service for cached selectors: both cache flags of every request are
    cleared; and the cache service is asked at most once, whatever
    [use_cache] is. *)
Theorem use_cache_false_no_cache_request C p only_one use_cache timeout w :
  let delta := added w (snd (_get_element C p only_one use_cache timeout w)) in
  (use_cache = false ->
   Forall (fun ev => match ev with
                     | EvInteractionsSelector dto _ =>
                         GetElementsDTO.use_cache dto = false /\
                         GetElementsDTO.force_use_cache dto = false
                     | _ => True
                     end) delta) /\
  (count is_cache_check delta <= 1)%nat.
Proof.
  cbv zeta.
  destruct (_get_element_log C p only_one use_cache timeout w)
    as (probe & cached & discovered & Htr & Hprobe & Hc & Hd & _).
  rewrite (added_app _ _ _ Htr).
  assert (Hchecks : forall co l, Forall (tier_event p only_one (browser_api_config C) co) l ->
                                 count is_cache_check l = 0%nat).
  { intros co l Hl. induction Hl as [|ev l Hev _ IH]; [reflexivity|].
    rewrite count_cons, IH. destruct ev; simpl in *; try reflexivity. contradiction. }
  split.
  - intros ->.
    assert (cached = []) as ->.
    { destruct Hprobe as [(e & _ & -> & _)|(info & reply & _ & Hgate & _)]; [reflexivity|].
      destruct cached as [|ev cached]; [reflexivity|].
      destruct Hgate as [Habs _]; [discriminate|discriminate Habs]. }
    simpl. apply Forall_app. split.
    + destruct Hprobe as [(e & -> & _)|(info & reply & -> & _)]; now repeat constructor.
    + eapply Forall_impl; [exact Hd|]. intros [] Hev; simpl in *; tauto.
  - rewrite !count_app, (Hchecks true cached Hc), (Hchecks false discovered Hd).
    destruct Hprobe as [(e & -> & _)|(info & reply & -> & _)];
      repeat rewrite count_cons; simpl; unfold count; simpl; lia.
Qed.

(** X9. When the cache service answers that a selector exists, [use_cache] is
    set and the cache tier comes back with a truthy outcome, [_get_element]
    returns that outcome as it is and the discovery tier is not run: up to
    then every request had both cache flags set and no screenshot was
    taken. *)
Theorem cache_hit_skips_discovery C p only_one timeout w w1 cached w2 :
  test_if_cache_available C p w = (Ok true, w1) ->
  attempt_with_backoff C p only_one (browser_api_config C) CACHE_TIMEOUT true w1
  = (Ok cached, w2) ->
  truthy C cached = true ->
  _get_element C p only_one true timeout w = (Ok cached, w2) /\
  Forall (fun ev => match ev with
                    | EvInteractionsSelector dto _ =>
                        GetElementsDTO.use_cache dto = true /\
                        GetElementsDTO.force_use_cache dto = true
                    | EvPageInformation include_screenshot _ => include_screenshot = false
                    | _ => True
                    end) (added w w2).
Proof.
  intros Hprobe Hcache Htruthy. split.
  - now rewrite _get_element_run, Hprobe, Hcache, Htruthy.
  - destruct (attempt_with_backoff_log C p only_one (browser_api_config C)
                CACHE_TIMEOUT true w1) as (dc & Htrc & Hevc & _).
    rewrite Hcache in Htrc. cbn [snd] in Htrc.
    rewrite test_if_cache_available_run in Hprobe.
    destruct (page_get_page_information C false w) as [[info|e] d1]; [|discriminate].
    cbv zeta in Hprobe.
    destruct (client_check_selector_cache C (probe_dto p info) _) as [reply d2].
    injection Hprobe as -> <-.
    rewrite (added_app w w2 ([EvPageInformation false (Ok info);
                              EvCheckSelectorCache (probe_dto p info) (Ok true)] ++ dc)).
    + apply Forall_app. split; [now repeat constructor|].
      eapply Forall_impl; [exact Hevc|]. intros [] Hev; simpl in *; tauto.
    + rewrite Htrc. simpl. rewrite <- !app_assoc. reflexivity.
Qed.

(** X10. Unless the cache service answers that a selector exists, [use_cache]
    makes no difference: the call does the same and returns the same with
    [use_cache = True] as with [use_cache = False]. *)
Theorem use_cache_irrelevant_without_cache C p only_one timeout w :
  fst (test_if_cache_available C p w) <> Ok true ->
  _get_element C p only_one true timeout w = _get_element C p only_one false timeout w.
Proof.
  intros Hprobe. rewrite !_get_element_run.
  destruct (test_if_cache_available C p w) as [[[|]|e] w1]; cbn [fst] in Hprobe.
  - congruence.
  - reflexivity.
  - reflexivity.
Qed.

(** X11. A [timeout] shorter than the time the probe took, or a [timeout] of 0
    (or less) when the probe took no negative time, leaves nothing to the
    discovery tier: when the cache tier is not entered, [_get_element] returns
    [None] right after the probe, without a single request to the discovery
    service. *)
Theorem timeout_spent_by_probe C p only_one use_cache timeout w info d1 cache_available d2 :
  page_get_page_information C false w = (Ok info, d1) ->
  client_check_selector_cache C (probe_dto p info)
    (after_call w (EvPageInformation false (Ok info)) d1) = (Ok cache_available, d2) ->
  cache_available && use_cache = false ->
  timeout < d1 + d2 \/ (timeout <= 0 /\ 0 <= d1 + d2) ->
  _get_element C p only_one use_cache timeout w
  = (Ok NoneValue,
     {| now := now w + d1 + d2;
        trace := trace w ++ [EvPageInformation false (Ok info);
                             EvCheckSelectorCache (probe_dto p info) (Ok cache_available)] |}).
Proof.
  intros Hinfo Hcheck Hgate Htimeout.
  rewrite _get_element_run, test_if_cache_available_run, Hinfo. cbv zeta.
  rewrite Hcheck, Hgate.
  unfold discovery_tier, bind. rewrite attempt_with_backoff_run.
  unfold TIMEOUT_INTERVAL. rewrite backoff_loop_cons.
  destruct (_ <=? 0) eqn:Hle.
  - cbn. unfold after_call. simpl. now rewrite <- app_assoc.
  - apply Z.leb_gt in Hle. simpl in Hle. lia.
Qed.

(** Witness of X8: a call with [use_cache = False]. *)
Lemma use_cache_false_no_cache_request_witness :
  Forall (fun ev => match ev with
                    | EvInteractionsSelector dto _ =>
                        GetElementsDTO.use_cache dto = false /\
                        GetElementsDTO.force_use_cache dto = false
                    | _ => True
                    end)
         (added w0 (snd (_get_element always_failure (PromptStr "the login button")
                           true false 300 w0))) /\
  (count is_cache_check
     (added w0 (snd (_get_element always_failure (PromptStr "the login button")
                       true false 300 w0))) <= 1)%nat.
Proof.
  destruct (use_cache_false_no_cache_request always_failure (PromptStr "the login button")
              true false 300 w0) as [Hflags Hcount].
  split; [exact (Hflags eq_refl)|exact Hcount].
Defined.

(** Witness of X9: the cached selector is still good. *)
Lemma cache_hit_skips_discovery_witness :
  let w1 := after_call
              (after_call w0 (EvPageInformation false (Ok (default_page_information false))) 0)
              (EvCheckSelectorCache
                 (probe_dto (PromptStr "the first row") (default_page_information false))
                 (Ok true)) 0 in
  let w2 := snd (attempt_with_backoff cache_hit (PromptStr "the first row") true
                   (browser_api_config cache_hit) CACHE_TIMEOUT true w1) in
  _get_element cache_hit (PromptStr "the first row") true true 15000 w0
  = (Ok (OneElement (el 1)), w2) /\
  Forall (fun ev => match ev with
                    | EvInteractionsSelector dto _ =>
                        GetElementsDTO.use_cache dto = true /\
                        GetElementsDTO.force_use_cache dto = true
                    | EvPageInformation include_screenshot _ => include_screenshot = false
                    | _ => True
                    end) (added w0 w2).
Proof.
  intros w1 w2.
  apply (cache_hit_skips_discovery cache_hit (PromptStr "the first row") true 15000 w0 w1
           (OneElement (el 1)) w2).
  - vm_compute. reflexivity.
  - vm_compute. reflexivity.
  - reflexivity.
Defined.

(** Witness of X10: nothing is cached. *)
Lemma use_cache_irrelevant_without_cache_witness :
  _get_element always_failure (PromptStr "the login button") true true 300 w0
  = _get_element always_failure (PromptStr "the login button") true false 300 w0.
Proof.
  apply (use_cache_irrelevant_without_cache always_failure (PromptStr "the login button")
           true 300 w0).
  vm_compute. discriminate.
Defined.

(** Witness of X11: a probe of 400 ms with a timeout of 300 ms, and an instant
    probe with a timeout of 0. *)
Lemma timeout_spent_by_probe_witness :
  _get_element slow_probe (PromptStr "the login button") true true 300 w0
  = (Ok NoneValue,
     {| now := now w0 + 0 + 400;
        trace := trace w0 ++
                 [EvPageInformation false (Ok (default_page_information false));
                  EvCheckSelectorCache
                    (probe_dto (PromptStr "the login button") (default_page_information false))
                    (Ok false)] |}) /\
  _get_element always_failure (PromptStr "the login button") true true 0 w0
  = (Ok NoneValue,
     {| now := now w0 + 0 + 0;
        trace := trace w0 ++
                 [EvPageInformation false (Ok (default_page_information false));
                  EvCheckSelectorCache
                    (probe_dto (PromptStr "the login button") (default_page_information false))
                    (Ok false)] |}).
Proof.
  split.
  - apply (timeout_spent_by_probe slow_probe (PromptStr "the login button") true true 300 w0
             (default_page_information false) 0 false 400); try reflexivity.
    left. lia.
  - apply (timeout_spent_by_probe always_failure (PromptStr "the login button") true true 0
             w0 (default_page_information false) 0 false 0); try reflexivity.
    right. lia.
Defined.

(** ** The list branch on a page that may change *)

Lemma first_live_conversation C only_one selectors w :
  exists delta,
    trace (snd (first_live C only_one selectors w)) = trace w ++ delta /\
    ((delta = map no_match selectors /\
      fst (first_live C only_one selectors w) = Ok NoneValue) \/
     (exists skipped s rest e els,
         selectors = skipped ++ s :: rest /\
         delta = map no_match skipped ++ [EvAllElements s (Ok (e :: els))] /\
         fst (first_live C only_one selectors w)
         = Ok (if only_one then OneElement e else ElementList (e :: els))) \/
     (exists skipped s rest exn,
         selectors = skipped ++ s :: rest /\
         delta = map no_match skipped ++ [EvAllElements s (Raise exn)] /\
         fst (first_live C only_one selectors w) = Raise exn)).
Proof.
  revert w. induction selectors as [|s rest IH]; intros w; simpl.
  - exists []. split; [now rewrite app_nil_r|]. now left.
  - unfold bind, _get_all_elements_from_selector, call.
    destruct (page_get_all_elements_from_selector C s w) as [[[|e els]|exn] took].
    + destruct (IH (after_call w (EvAllElements s (Ok [])) took)) as (delta & Htr & Hcases).
      exists (no_match s :: delta). split.
      { unfold after_call in Htr. rewrite Htr. simpl. now rewrite <- app_assoc. }
      destruct Hcases as [[-> Hres]|[(sk & s' & rest' & e & els & -> & -> & Hres)
                                    |(sk & s' & rest' & exn & -> & -> & Hres)]].
      * left. now split.
      * right. left. exists (s :: sk), s', rest', e, els. now repeat split.
      * right. right. exists (s :: sk), s', rest', exn. now repeat split.
    + exists [EvAllElements s (Ok (e :: els))]. split; [reflexivity|].
      right. left. exists [], s, rest, e, els. now repeat split.
    + exists [EvAllElements s (Raise exn)]. split; [reflexivity|].
      right. right. exists [], s, rest, exn. now repeat split.
Qed.

(** X12. On a list-shaped resolution, whatever the page driver answers and
    even if the page changes between two queries: the selectors are asked
    about from the last to the first, each at most once, up to the first
    answer that is not an empty list.  If that answer is a list of elements
    the outcome is exactly that list (its first element when [only_one]); if
    it is an exception, it is raised; if all answers are empty, the outcome is
    [None]. *)
Theorem list_branch_conversation C res only_one l w :
  selectors res = SelList l ->
  let run := get_elements_from_selectors C res only_one w in
  (added w (snd run) = map no_match (rev l) /\ fst run = Ok NoneValue) \/
  (exists skipped s rest e els,
      rev l = skipped ++ s :: rest /\
      added w (snd run) = map no_match skipped ++ [EvAllElements s (Ok (e :: els))] /\
      fst run = Ok (if only_one then OneElement e else ElementList (e :: els))) \/
  (exists skipped s rest exn,
      rev l = skipped ++ s :: rest /\
      added w (snd run) = map no_match skipped ++ [EvAllElements s (Raise exn)] /\
      fst run = Raise exn).
Proof.
  intros Hsel. cbv zeta. unfold get_elements_from_selectors. rewrite Hsel.
  destruct (first_live_conversation C only_one (rev l) w) as (delta & Htr & Hcases).
  rewrite (added_app _ _ _ Htr). exact Hcases.
Qed.

(** Witness of X12: selectors [#a; #b; #c] on a page where only [#a] matches. *)
Lemma list_branch_conversation_witness :
  let run := get_elements_from_selectors cache_hit
               (success_response (SelList ["#a"; "#b"; "#c"])) false w0 in
  (added w0 (snd run) = map no_match (rev ["#a"; "#b"; "#c"]) /\ fst run = Ok NoneValue) \/
  (exists skipped s rest e els,
      rev ["#a"; "#b"; "#c"] = skipped ++ s :: rest /\
      added w0 (snd run) = map no_match skipped ++ [EvAllElements s (Ok (e :: els))] /\
      fst run = Ok (if false then OneElement e else ElementList (e :: els))) \/
  (exists skipped s rest exn,
      rev ["#a"; "#b"; "#c"] = skipped ++ s :: rest /\
      added w0 (snd run) = map no_match skipped ++ [EvAllElements s (Raise exn)] /\
      fst run = Raise exn).
Proof.
  apply (list_branch_conversation cache_hit (success_response (SelList ["#a"; "#b"; "#c"]))
           false ["#a"; "#b"; "#c"] w0).
  reflexivity.
Defined.

(** ** Where the elements of a named-field response come from *)

Lemma first_match_found C selectors w :
  exists delta,
    trace (snd (first_match C selectors w)) = trace w ++ delta /\
    (forall e, fst (first_match C selectors w) = Ok (Some e) ->
               exists s els, s ∈ selectors /\ EvAllElements s (Ok (e :: els)) ∈ delta).
Proof.
  revert w. induction selectors as [|s rest IH]; intros w; simpl.
  - exists []. split; [now rewrite app_nil_r|discriminate].
  - unfold bind, _get_all_elements_from_selector, call.
    destruct (page_get_all_elements_from_selector C s w) as [[[|el els]|exn] took].
    + destruct (IH (after_call w (EvAllElements s (Ok [])) took)) as (delta & Htr & Hfound).
      exists (EvAllElements s (Ok []) :: delta). split.
      { unfold after_call in Htr. rewrite Htr. simpl. now rewrite <- app_assoc. }
      intros e He. destruct (Hfound e He) as (s' & els' & Hs' & Hev).
      exists s', els'. split; [now apply elem_of_cons; right|now apply elem_of_cons; right].
    + exists [EvAllElements s (Ok (el :: els))]. split; [reflexivity|].
      simpl. intros e [= <-]. exists s, els.
      split; [now apply elem_of_cons; left|now apply elem_of_cons; left].
    + exists [EvAllElements s (Raise exn)]. split; [reflexivity|discriminate].
Qed.

Lemma fill_fields_found C items result w :
  exists delta,
    trace (snd (fill_fields C items result w)) = trace w ++ delta /\
    (forall data, fst (fill_fields C items result w) = Ok data ->
       forall key e, data !! key = Some e ->
         result !! key = Some e \/
         exists sels s els,
           (key, sels) ∈ items /\ s ∈ sels /\ EvAllElements s (Ok (e :: els)) ∈ delta).
Proof.
  revert result w. induction items as [|[k sels] rest IH]; intros result w; simpl.
  - exists []. split; [now rewrite app_nil_r|].
    intros data [= <-] key e He. now left.
  - unfold bind at 1 2.
    destruct (first_match_found C sels w) as (d1 & Htr1 & Hfound).
    destruct (first_match C sels w) as [[found|exn] w1]; cbn [fst snd] in Htr1, Hfound.
    2:{ exists d1. split; [exact Htr1|discriminate]. }
    destruct (IH (match found with Some e => <[k:=e]> result | None => result end) w1)
      as (d2 & Htr2 & Hrest).
    exists (d1 ++ d2). split; [rewrite Htr2, Htr1; now rewrite <- app_assoc|].
    intros data Hdata key e He.
    destruct (Hrest data Hdata key e He) as [Hprev|(sels' & s & els & Hin & Hs & Hev)].
    + destruct found as [e0|]; [|now left].
      destruct (decide (k = key)) as [->|Hne].
      * rewrite lookup_insert_eq in Hprev. injection Hprev as ->.
        destruct (Hfound e eq_refl) as (s & els & Hs & Hev).
        right. exists sels, s, els. split; [now apply elem_of_cons; left|].
        split; [exact Hs|]. apply elem_of_app. now left.
      * rewrite lookup_insert_ne in Hprev by exact Hne. now left.
    + right. exists sels', s, els. split; [now apply elem_of_cons; right|].
      split; [exact Hs|]. apply elem_of_app. now right.
Qed.

(** X13. Every element of a named-field response was seen on the page during
    this very call: if [get_elements_from_selectors] returns, on a dict-shaped
    resolution, a response that binds [key] to [e], then [key] is a field of
    the resolution and the page driver, asked in this call about one of the
    selectors of that field, answered a list that starts with [e].  No
    selector string of the service is trusted unchecked and no other name is
    bound. *)
Theorem named_fields_come_from_the_page C res only_one items w r :
  selectors res = SelDict items ->
  fst (get_elements_from_selectors C res only_one w) = Ok r ->
  exists data,
    r = ElementsResponse data /\
    forall key e,
      data !! key = Some e ->
      exists sels s els,
        (key, sels) ∈ items /\ s ∈ sels /\
        EvAllElements s (Ok (e :: els))
        ∈ added w (snd (get_elements_from_selectors C res only_one w)).
Proof.
  intros Hsel. unfold get_elements_from_selectors. rewrite Hsel. unfold bind, ret.
  destruct (fill_fields_found C items ∅ w) as (delta & Htr & Hfound).
  destruct (fill_fields C items ∅ w) as [[data|exn] w1]; cbn [fst snd] in *; [|discriminate].
  intros [= <-]. exists data. split; [reflexivity|].
  intros key e He. rewrite (added_app _ _ _ Htr).
  destruct (Hfound data eq_refl key e He) as [Habs|H]; [|exact H].
  rewrite lookup_empty in Habs. discriminate.
Qed.

(** Witness of X13: the resolution [{"name": ["#n1", "#n2"], "email": ["#e1"]}]
    on a page where [#n2] and [#e1] match. *)
Lemma named_fields_come_from_the_page_witness :
  exists data,
    ElementsResponse (<["email" := el 30]> (<["name" := el 20]> ∅)) = ElementsResponse data /\
    forall key e,
      data !! key = Some e ->
      exists sels s els,
        (key, sels) ∈ [("name", ["#n1"; "#n2"]); ("email", ["#e1"])] /\ s ∈ sels /\
        EvAllElements s (Ok (e :: els))
        ∈ added w0
            (snd (get_elements_from_selectors
                    (scripted page_form (Ok false) (fun _ => Ok failure_response) 0 0)
                    (success_response
                       (SelDict [("name", ["#n1"; "#n2"]); ("email", ["#e1"])])) false w0)).
Proof.
  apply (named_fields_come_from_the_page
           (scripted page_form (Ok false) (fun _ => Ok failure_response) 0 0)
           (success_response (SelDict [("name", ["#n1"; "#n2"]); ("email", ["#e1"])]))
           false [("name", ["#n1"; "#n2"]); ("email", ["#e1"])] w0).
  - reflexivity.
  - vm_compute. reflexivity.
Defined.

(** ** How many requests fit in a budget *)

Lemma attempts_within_mono remaining intervals elapsed elapsed' :
  elapsed <= elapsed' ->
  (attempts_within remaining elapsed' intervals
   <= attempts_within remaining elapsed intervals)%nat.
Proof.
  revert elapsed elapsed'. induction intervals as [|current rest IH];
    intros elapsed elapsed' Hle; simpl; [lia|].
  destruct (remaining <=? elapsed') eqn:E'; [lia|].
  destruct (remaining <=? elapsed) eqn:E.
  - apply Z.leb_le in E. apply Z.leb_gt in E'. lia.
  - apply le_n_S. apply IH. lia.
Qed.

Lemma backoff_loop_requests_nonneg C p only_one cfg remaining cache_only start
      intervals elapsed w :
  durations_nonneg C ->
  elapsed <= now w - start ->
  (count is_request
     (trace (snd (backoff_loop C p only_one cfg remaining cache_only start
                    intervals elapsed w)))
   <= count is_request (trace w) + attempts_within remaining elapsed intervals)%nat.
Proof.
  intros Hd. revert elapsed w.
  induction intervals as [|current rest IH]; intros elapsed w Hclock.
  - simpl. lia.
  - rewrite backoff_loop_cons. simpl attempts_within.
    destruct (remaining <=? elapsed); [simpl; lia|].
    pose proof Hd as (Hpi & _ & _ & Hreq). specialize (Hpi (negb cache_only) w).
    destruct (page_get_page_information C (negb cache_only) w) as [[info|e] d1];
      simpl in Hpi.
    2:{ simpl. rewrite count_app. simpl. unfold count at 2. simpl. lia. }
    cbv zeta.
    match goal with |- context [client_get_interactions_selector C ?d ?w1] =>
      specialize (Hreq d w1);
      destruct (client_get_interactions_selector C d w1) as [[res|e] d2] end;
      simpl in Hreq.
    2:{ simpl. rewrite !count_app. unfold count at 2 3. simpl. lia. }
    destruct (String.eqb (status res) "impossible").
    { simpl. rewrite !count_app. unfold count at 2 3. simpl. lia. }
    match goal with |- context [after_call (after_call w ?e1 d1) ?e2 d2] =>
      set (w2 := after_call (after_call w e1 d1) e2 d2) end.
    assert (Hw2 : count is_request (trace w2) = S (count is_request (trace w))
                  /\ now w2 = now w + d1 + d2).
    { subst w2. simpl. rewrite !count_app. unfold count at 2 3. simpl. lia. }
    destruct Hw2 as [Hcount2 Hnow2].
    assert (Hw3 : count is_request
                    (trace (snd (if String.eqb (status res) "success"
                                 then get_elements_from_selectors C res only_one w2
                                 else (Ok NoneValue, w2))))
                  = S (count is_request (trace w))
                  /\ now w2 <= now (snd (if String.eqb (status res) "success"
                                         then get_elements_from_selectors C res only_one w2
                                         else (Ok NoneValue, w2)))).
    { destruct (String.eqb (status res) "success"); [|cbn [snd]; split; [exact Hcount2|lia]].
      destruct (get_elements_from_selectors_trace C res only_one w2) as (dq & Hdq & Hqq).
      rewrite Hdq, count_app, (count_queries is_request dq), Hcount2.
      - split; [lia|]. now apply get_elements_from_selectors_clock.
      - intros []; simpl; congruence.
      - exact Hqq. }
    destruct (if String.eqb (status res) "success"
              then get_elements_from_selectors C res only_one w2
              else (Ok NoneValue, w2)) as [[response|e] w3];
      cbn [snd] in Hw3; destruct Hw3 as [Hcount3 Hnow3].
    2:{ cbn [snd]. lia. }
    destruct (String.eqb (status res) "success" && truthy C response); [cbn [snd]; lia|].
    set (d := Z.max 0 (current - (now w2 - now w))).
    etransitivity.
    + apply IH. cbn [now after_call]. lia.
    + cbn [trace after_call]. rewrite count_app, Hcount3. unfold count at 2. simpl.
      pose proof (attempts_within_mono remaining rest (elapsed + Z.max 0 current)
                    (now w3 + d - start)) as Hmono.
      assert (Hle : elapsed + Z.max 0 current <= now w3 + d - start) by (subst d; lia).
      specialize (Hmono Hle). lia.
Qed.

Lemma attempts_within_budget_mono intervals remaining remaining' elapsed :
  remaining <= remaining' ->
  (attempts_within remaining elapsed intervals
   <= attempts_within remaining' elapsed intervals)%nat.
Proof.
  intros Hle. revert elapsed. induction intervals as [|current rest IH];
    intros elapsed; simpl; [lia|].
  destruct (remaining <=? elapsed) eqn:E; [lia|].
  destruct (remaining' <=? elapsed) eqn:E'.
  - apply Z.leb_gt in E. apply Z.leb_le in E'. lia.
  - apply le_n_S. apply IH.
Qed.

(** X14. When no call makes the clock go back, a run of
    [attempt_with_backoff] sends no more requests than there are attempts of
    the schedule that start no later than the end of the budget when every
    round lasts exactly its interval: slower answers can only make them
    fewer.  An attempt that would start at the very millisecond the budget
    ends is counted, the comparison of the clock with the budget being left
    open there.  The cache tier, with its 5000 ms, thus sends at most five
    requests (they would start at 0, 150, 600, 1600 and 3600 ms). *)
Theorem requests_within_budget C p only_one cfg remaining cache_only w :
  durations_nonneg C ->
  (count is_request
     (added w (snd (attempt_with_backoff C p only_one cfg remaining cache_only w)))
   <= attempts_within (remaining + 1) 0 TIMEOUT_INTERVAL)%nat /\
  (count is_request
     (added w (snd (attempt_with_backoff C p only_one cfg CACHE_TIMEOUT true w))) <= 5)%nat.
Proof.
  intros Hd.
  assert (H : forall budget co,
             (count is_request
                (added w (snd (attempt_with_backoff C p only_one cfg budget co w)))
              <= attempts_within (budget + 1) 0 TIMEOUT_INTERVAL)%nat).
  { intros budget co. rewrite attempt_with_backoff_run.
    pose proof (backoff_loop_requests_nonneg C p only_one cfg budget co (now w)
                  TIMEOUT_INTERVAL 0 w Hd) as Hbound.
    destruct (backoff_loop_log C p only_one cfg budget co (now w) TIMEOUT_INTERVAL 0 w)
      as (delta & Htr & _).
    rewrite (added_app _ _ _ Htr). rewrite Htr, count_app in Hbound.
    pose proof (attempts_within_budget_mono TIMEOUT_INTERVAL budget (budget + 1) 0).
    lia. }
  split; [apply H|]. exact (H CACHE_TIMEOUT true).
Qed.

(** Witness of X14: a stale cached selector keeps the cache tier busy; with a
    budget of 150 ms up to two requests are counted. *)
Lemma requests_within_budget_witness :
  (count is_request
     (added w0 (snd (attempt_with_backoff stale_list (PromptStr "the name field") false
                       (browser_api_config stale_list) 150 true w0)))
   <= 2)%nat /\
  (count is_request
     (added w0 (snd (attempt_with_backoff stale_list (PromptStr "the name field") false
                       (browser_api_config stale_list) CACHE_TIMEOUT true w0))) <= 5)%nat.
Proof.
  exact (requests_within_budget stale_list (PromptStr "the name field") false
           (browser_api_config stale_list) 150 true w0 stale_list_durations_nonneg).
Defined.

(** ** The shape of what is returned *)

Lemma first_live_shaped C only_one selectors w r :
  fst (first_live C only_one selectors w) = Ok r -> shaped only_one r.
Proof.
  revert w. induction selectors as [|s rest IH]; intros w; simpl.
  - intros [= <-]. exact I.
  - unfold bind, _get_all_elements_from_selector, call.
    destruct (page_get_all_elements_from_selector C s w) as [[[|e els]|exn] took].
    + apply IH.
    + simpl. intros [= <-]. destruct only_one; simpl; [reflexivity|]. now split.
    + discriminate.
Qed.

Lemma get_elements_from_selectors_shaped C res only_one w r :
  fst (get_elements_from_selectors C res only_one w) = Ok r -> shaped only_one r.
Proof.
  unfold get_elements_from_selectors. destruct (selectors res) as [l|items].
  - apply first_live_shaped.
  - unfold bind, ret. destruct (fill_fields C items ∅ w) as [[data|exn] w1]; simpl.
    + intros [= <-]. exact I.
    + discriminate.
Qed.

Lemma backoff_loop_shaped C p only_one cfg remaining cache_only start intervals elapsed w r :
  fst (backoff_loop C p only_one cfg remaining cache_only start intervals elapsed w) = Ok r ->
  shaped only_one r.
Proof.
  revert elapsed w. induction intervals as [|current rest IH]; intros elapsed w.
  - simpl. intros [= <-]. exact I.
  - rewrite backoff_loop_cons.
    destruct (remaining <=? elapsed); [simpl; intros [= <-]; exact I|].
    destruct (page_get_page_information C (negb cache_only) w) as [[info|e] d1];
      [|discriminate].
    cbv zeta.
    destruct (client_get_interactions_selector C _ _) as [[res|e] d2]; [|discriminate].
    destruct (String.eqb (status res) "impossible"); [simpl; intros [= <-]; exact I|].
    destruct (String.eqb (status res) "success").
    + match goal with |- context [get_elements_from_selectors C res only_one ?w2] =>
        pose proof (get_elements_from_selectors_shaped C res only_one w2) as Hshape end.
      destruct (get_elements_from_selectors C res only_one _) as [[response|e] w3];
        [|discriminate].
      cbn [andb]. destruct (truthy C response); [|apply IH].
      cbn [fst]. intros [= <-]. now apply Hshape.
    + cbn [andb]. apply IH.
Qed.

Lemma _get_element_shaped C p only_one use_cache timeout w r :
  fst (_get_element C p only_one use_cache timeout w) = Ok r ->
  shaped only_one r /\ (r = NoneValue \/ truthy C r = true).
Proof.
  assert (Hloop : forall budget co w' r',
             fst (attempt_with_backoff C p only_one (browser_api_config C) budget co w')
             = Ok r' -> shaped only_one r').
  { intros budget co w' r'. rewrite attempt_with_backoff_run. apply backoff_loop_shaped. }
  assert (Hdisc : forall budget w',
             fst (discovery_tier C p only_one budget w') = Ok r ->
             shaped only_one r /\ (r = NoneValue \/ truthy C r = true)).
  { intros budget w'. unfold discovery_tier, bind, ret.
    specialize (Hloop budget false w').
    destruct (attempt_with_backoff C p only_one (browser_api_config C) budget false w')
      as [[res|e] w3]; [|discriminate].
    destruct (truthy C res) eqn:Ht; cbn [fst]; intros [= <-].
    - split; [now apply Hloop|now right].
    - split; [exact I|now left]. }
  rewrite _get_element_run.
  destruct (test_if_cache_available C p w) as [[b|e] w1]; [|discriminate].
  destruct (b && use_cache); [|apply Hdisc].
  specialize (Hloop CACHE_TIMEOUT true w1).
  destruct (attempt_with_backoff C p only_one (browser_api_config C) CACHE_TIMEOUT true w1)
    as [[cached|e] w2]; [|discriminate].
  destruct (truthy C cached) eqn:Ht; [|apply Hdisc].
  cbn [fst]. intros [= <-]. split; [now apply Hloop|now right].
Qed.

(** X15. What the public entry points return.  [get_element] returns [None],
    one element or a named-field response, never a list.  [get_elements]
    returns [None], a non-empty list or a named-field response: never a single
    element, and never the empty list -- when nothing is found the result is
    [None]. *)
Theorem public_outcomes C use_cache timeout w :
  (forall prompt r,
      fst (get_element C prompt use_cache timeout w) = Ok r ->
      r = NoneValue \/ (exists e, r = OneElement e) \/ (exists data, r = ElementsResponse data)) /\
  (forall prompt_or_elements r,
      fst (get_elements C prompt_or_elements use_cache timeout w) = Ok r ->
      r = NoneValue \/ (exists e l, r = ElementList (e :: l)) \/
      (exists data, r = ElementsResponse data)).
Proof.
  split.
  - intros prompt r Hrun.
    destruct (_get_element_shaped C (PromptStr prompt) true use_cache timeout w r Hrun)
      as [Hshape _].
    destruct r as [|e|l|data]; simpl in Hshape; eauto.
    destruct Hshape as [Habs _]. discriminate Habs.
  - intros p r Hrun.
    destruct (_get_element_shaped C p false use_cache timeout w r Hrun) as [Hshape _].
    destruct r as [|e|l|data]; simpl in Hshape; eauto.
    + discriminate Hshape.
    + destruct Hshape as [_ Hne]. destruct l as [|e l]; [congruence|]. eauto.
Qed.

(** Witness of X15: a cache hit, asked for one element and asked for all. *)
Lemma public_outcomes_witness :
  (OneElement (el 1) = NoneValue \/ (exists e, OneElement (el 1) = OneElement e) \/
   (exists data, OneElement (el 1) = ElementsResponse data)) /\
  (ElementList [el 1; el 2] = NoneValue \/
   (exists e l, ElementList [el 1; el 2] = ElementList (e :: l)) \/
   (exists data, ElementList [el 1; el 2] = ElementsResponse data)).
Proof.
  destruct (public_outcomes cache_hit true 15000 w0) as [Hone Hall].
  split.
  - apply (Hone "the first row"). vm_compute. reflexivity.
  - apply (Hall (PromptStr "the rows")). vm_compute. reflexivity.
Defined.

(** ** How long a run lasts when nothing is found *)

Lemma backoff_loop_slept C p only_one cfg remaining cache_only start intervals elapsed w :
  instant C ->
  attempts_fail C ->
  now w - start = elapsed ->
  now (snd (backoff_loop C p only_one cfg remaining cache_only start intervals elapsed w))
  = now w + slept remaining elapsed intervals.
Proof.
  intros Hi Hfail. revert elapsed w.
  induction intervals as [|current rest IH]; intros elapsed w Hclock.
  - simpl. lia.
  - rewrite backoff_loop_cons. simpl slept.
    destruct (remaining <=? elapsed); [simpl; lia|].
    pose proof Hi as (Hpi & _ & _ & Hreq). specialize (Hpi (negb cache_only) w).
    pose proof Hfail as (Hpage & Hans). specialize (Hpage (negb cache_only) w).
    destruct Hpage as [info Hinfo].
    destruct (page_get_page_information C (negb cache_only) w) as [reply d1];
      simpl in Hpi, Hinfo; subst d1 reply.
    cbv zeta.
    match goal with |- context [client_get_interactions_selector C ?d ?w1] =>
      specialize (Hreq d w1); destruct (Hans d w1) as (res & Hres & Himp & Hsucc);
      destruct (client_get_interactions_selector C d w1) as [reply d2] end;
      simpl in Hreq, Hres; subst d2 reply.
    rewrite Himp, Hsucc. simpl.
    replace (now w + 0 + 0 - now w) with 0 by lia. rewrite Z.sub_0_r.
    match goal with |- context [backoff_loop _ _ _ _ _ _ _ rest ?el ?w4] =>
      rewrite (IH el w4) by (simpl; lia);
      replace el with (elapsed + Z.max 0 current) by lia end.
    simpl. lia.
Qed.

Lemma backoff_loop_last_sleep C p only_one cfg remaining cache_only start intervals
      elapsed w final :
  instant C ->
  attempts_fail C ->
  now w - start = elapsed ->
  attempts_within remaining elapsed intervals = length intervals ->
  last intervals = Some final ->
  last (trace (snd (backoff_loop C p only_one cfg remaining cache_only start
                      intervals elapsed w)))
  = Some (EvSleep (Z.max 0 final)).
Proof.
  intros Hi Hfail. revert elapsed w.
  induction intervals as [|current rest IH]; intros elapsed w Hclock Hall Hlast.
  - discriminate Hlast.
  - rewrite backoff_loop_cons. simpl attempts_within in Hall.
    destruct (remaining <=? elapsed); [discriminate Hall|].
    injection Hall as Hall.
    pose proof Hi as (Hpi & _ & _ & Hreq). specialize (Hpi (negb cache_only) w).
    pose proof Hfail as (Hpage & Hans). specialize (Hpage (negb cache_only) w).
    destruct Hpage as [info Hinfo].
    destruct (page_get_page_information C (negb cache_only) w) as [reply d1];
      simpl in Hpi, Hinfo; subst d1 reply.
    cbv zeta.
    match goal with |- context [client_get_interactions_selector C ?d ?w1] =>
      specialize (Hreq d w1); destruct (Hans d w1) as (res & Hres & Himp & Hsucc);
      destruct (client_get_interactions_selector C d w1) as [reply d2] end;
      simpl in Hreq, Hres; subst d2 reply.
    rewrite Himp, Hsucc. simpl.
    replace (now w + 0 + 0 - now w) with 0 by lia. rewrite Z.sub_0_r.
    destruct rest as [|next rest].
    + simpl in Hlast. injection Hlast as <-. simpl. apply last_snoc.
    + match goal with |- context [backoff_loop _ _ _ _ _ _ _ _ ?el ?w4] =>
        apply (IH el w4) end.
      * simpl. lia.
      * match goal with |- attempts_within _ ?el _ = _ =>
          replace el with (elapsed + Z.max 0 current) by lia end.
        exact Hall.
      * exact Hlast.
Qed.

(** X16. The loop sleeps after its last attempt too.  When the collaborators
    answer at once, every attempt fails and the budget is above 7600 ms, a
    run of [attempt_with_backoff] makes all six requests and returns [None]
    15600 ms after it started, the last 8000 ms spent sleeping after the sixth
    answer: with a budget between 7600 and 15600 ms (such as the default of
    15000 ms) the run outlasts its budget. *)
Theorem all_attempts_fail_after_15600 C p only_one cfg remaining cache_only w :
  instant C ->
  attempts_fail C ->
  7600 < remaining ->
  let run := attempt_with_backoff C p only_one cfg remaining cache_only w in
  fst run = Ok NoneValue /\
  now (snd run) = now w + 15600 /\
  count is_request (added w (snd run)) = 6%nat /\
  last (trace (snd run)) = Some (EvSleep 8000).
Proof.
  intros Hi Hfail Hbudget. cbv zeta. rewrite attempt_with_backoff_run.
  destruct (backoff_loop_requests_exact C p only_one cfg remaining cache_only (now w)
              TIMEOUT_INTERVAL 0 w Hi Hfail) as [Hres Hcount]; [lia|].
  pose proof (backoff_loop_slept C p only_one cfg remaining cache_only (now w)
                TIMEOUT_INTERVAL 0 w Hi Hfail) as Hnow.
  destruct (backoff_loop_log C p only_one cfg remaining cache_only (now w)
              TIMEOUT_INTERVAL 0 w) as (delta & Htr & Hlog).
  rewrite (added_app _ _ _ Htr).
  assert (Hsix : attempts_within remaining 0 TIMEOUT_INTERVAL = 6%nat
                 /\ slept remaining 0 TIMEOUT_INTERVAL = 15600).
  { unfold TIMEOUT_INTERVAL. cbn [attempts_within slept].
    repeat match goal with
           | |- context [remaining <=? ?k] =>
               destruct (Z.leb_spec remaining k); [lia|]
           end.
    split; [reflexivity|lia]. }
  destruct Hsix as [Hsix Hslept].
  split; [exact Hres|]. split; [rewrite Hnow by lia; lia|].
  split; [rewrite Htr, count_app, Hsix in Hcount; lia|].
  apply (backoff_loop_last_sleep C p only_one cfg remaining cache_only (now w)
           TIMEOUT_INTERVAL 0 w 8000 Hi Hfail); [lia|exact Hsix|reflexivity].
Qed.

(** Witness of X16: the default budget of 15000 ms. *)
Lemma all_attempts_fail_after_15600_witness :
  let run := attempt_with_backoff always_failure (PromptStr "the login button") true
               (browser_api_config always_failure) 15000 false w0 in
  fst run = Ok NoneValue /\
  now (snd run) = now w0 + 15600 /\
  count is_request (added w0 (snd run)) = 6%nat /\
  last (trace (snd run)) = Some (EvSleep 8000).
Proof.
  apply (all_attempts_fail_after_15600 always_failure (PromptStr "the login button") true
           (browser_api_config always_failure) 15000 false w0
           always_failure_instant always_failure_attempts_fail).
  lia.
Defined.

(** ** An [impossible] answer in the cache tier *)

Lemma backoff_loop_impossible_first C p only_one cfg remaining cache_only start current rest
      elapsed w info d1 res d2 :
  (remaining <=? elapsed) = false ->
  page_get_page_information C (negb cache_only) w = (Ok info, d1) ->
  client_get_interactions_selector C (request_dto p only_one cfg cache_only info)
    (after_call w (EvPageInformation (negb cache_only) (Ok info)) d1) = (Ok res, d2) ->
  status res = "impossible" ->
  backoff_loop C p only_one cfg remaining cache_only start (current :: rest) elapsed w
  = (Ok NoneValue,
     after_call (after_call w (EvPageInformation (negb cache_only) (Ok info)) d1)
       (EvInteractionsSelector (request_dto p only_one cfg cache_only info) (Ok res)) d2).
Proof.
  intros Hbudget Hinfo Hres Hstatus.
  rewrite backoff_loop_cons, Hbudget, Hinfo. cbv zeta. rewrite Hres, Hstatus. reflexivity.
Qed.

(** X17. A response [impossible] ends the tier it comes in, not the call.
    When the cache tier is entered and its first request is answered
    [impossible], [_get_element] goes on with the discovery tier, on the
    budget [timeout] less the time spent so far. *)
Theorem impossible_in_cache_tier_goes_on C p only_one timeout w info0 d1 d2 info d3 res d4 :
  page_get_page_information C false w = (Ok info0, d1) ->
  client_check_selector_cache C (probe_dto p info0)
    (after_call w (EvPageInformation false (Ok info0)) d1) = (Ok true, d2) ->
  page_get_page_information C false
    (after_call (after_call w (EvPageInformation false (Ok info0)) d1)
       (EvCheckSelectorCache (probe_dto p info0) (Ok true)) d2) = (Ok info, d3) ->
  client_get_interactions_selector C
    (request_dto p only_one (browser_api_config C) true info)
    (after_call
       (after_call (after_call w (EvPageInformation false (Ok info0)) d1)
          (EvCheckSelectorCache (probe_dto p info0) (Ok true)) d2)
       (EvPageInformation false (Ok info)) d3) = (Ok res, d4) ->
  status res = "impossible" ->
  _get_element C p only_one true timeout w
  = discovery_tier C p only_one (timeout - (d1 + d2 + d3 + d4))
      (after_call
         (after_call
            (after_call (after_call w (EvPageInformation false (Ok info0)) d1)
               (EvCheckSelectorCache (probe_dto p info0) (Ok true)) d2)
            (EvPageInformation false (Ok info)) d3)
         (EvInteractionsSelector (request_dto p only_one (browser_api_config C) true info)
            (Ok res)) d4).
Proof.
  intros Hinfo0 Hcheck Hinfo Hres Hstatus.
  rewrite _get_element_run, test_if_cache_available_run, Hinfo0. cbv zeta.
  rewrite Hcheck. cbn [andb].
  rewrite attempt_with_backoff_run. unfold TIMEOUT_INTERVAL.
  rewrite (backoff_loop_impossible_first C p only_one (browser_api_config C) CACHE_TIMEOUT
             true _ 150 _ 0 _ info d3 res d4 eq_refl Hinfo Hres Hstatus).
  cbn [truthy].
  match goal with |- discovery_tier _ _ _ ?b _ = _ =>
    replace b with (timeout - (d1 + d2 + d3 + d4)) by (cbn [now after_call]; lia) end.
  reflexivity.
Qed.

(** Witness of X17: the cache tier is told [impossible]; two requests of the
    discovery tier follow. *)
Lemma impossible_in_cache_tier_goes_on_witness :
  _get_element cache_impossible (PromptStr "the login button") true true 300 w0
  = discovery_tier cache_impossible (PromptStr "the login button") true
      (300 - (0 + 0 + 0 + 0))
      (after_call
         (after_call
            (after_call
               (after_call w0
                  (EvPageInformation false (Ok (default_page_information false))) 0)
               (EvCheckSelectorCache
                  (probe_dto (PromptStr "the login button") (default_page_information false))
                  (Ok true)) 0)
            (EvPageInformation false (Ok (default_page_information false))) 0)
         (EvInteractionsSelector
            (request_dto (PromptStr "the login button") true
               (browser_api_config cache_impossible) true (default_page_information false))
            (Ok impossible_response)) 0) /\
  count is_request
    (trace (snd (_get_element cache_impossible (PromptStr "the login button") true true
                   300 w0))) = 3%nat.
Proof.
  split; [|vm_compute; reflexivity].
  apply (impossible_in_cache_tier_goes_on cache_impossible (PromptStr "the login button")
           true 300 w0 (default_page_information false) 0 0
           (default_page_information false) 0 impossible_response 0); reflexivity.
Defined.

(** ** A plain miss is [None]: exhausted schedule, exhausted budget *)









